(** * Reconstruction-job service ([backend/app.py]): model and properties

    The service accepts image uploads, stores them under a per-job
    directory, queues a worker task that runs an external sparse
    reconstruction script and an optional splat-training script, and serves
    job status and result files.

    The Python module is embedded shallowly:
    - paths are [pathlib] paths: lists of components with the join, [name],
      [stem], [suffix], [resolve] and [str] operations of [PurePosixPath];
    - the file system is a tree of directories and files, addressed the way
      the operating system resolves a path (every traversed prefix must be
      a directory, [..] steps to the parent); there are no symbolic links;
    - a file holds either opaque bytes or a JSON document; [json.dumps]
      followed by [json.loads] is the identity on documents, and any other
      content is rejected by [json.loads];
    - Python code runs in a state-and-exception monad over a [world]: the
      file system, the dictionary bound to the local name [meta], the
      random source behind [uuid.uuid4], and the broker queue;
    - the two shell scripts are external: [subprocess.run] is a parameter
      that maps the command line and the current file system to the
      completed process and the file system it leaves, or to a launch
      failure.

    Strings are sequences of 8-bit characters; a non-ASCII literal is kept
    as its UTF-8 bytes. *)

From Stdlib Require Import ZArith NArith String Ascii List DecimalString Lia.
From stdpp Require Import gmap strings list fin_maps.

#[local] Set Warnings "-register-all,-abstract-large-number".
#[local] Open Scope string_scope.
#[local] Open Scope list_scope.

(* ================================================================== *)
(** * Part I: definitions *)
(* ================================================================== *)

(** ** String operations of Python's [str] used by the module *)

Module Str.

(** [s.replace(a, b)] for one-character [a] and [b]. *)
Fixpoint replace_char (a b : ascii) (s : string) : string :=
  match s with
  | EmptyString => EmptyString
  | String c s' => String (if Ascii.eqb c a then b else c) (replace_char a b s')
  end.

(** [needle in hay]. *)
Fixpoint contains (needle hay : string) : bool :=
  String.prefix needle hay
  || match hay with
     | EmptyString => false
     | String _ hay' => contains needle hay'
     end.

(** [s[-n:]]: the last [n] characters; Python reads [s[-0:]] as all of [s]. *)
Definition last_chars (n : nat) (s : string) : string :=
  if Nat.eqb n 0 then s
  else String.substring (String.length s - n) n s.

(** [s.rfind(a)], [None] standing for [-1]. *)
Fixpoint rfind (a : ascii) (s : string) : option nat :=
  match s with
  | EmptyString => None
  | String c s' =>
      match rfind a s' with
      | Some i => Some (S i)
      | None => if Ascii.eqb c a then Some 0 else None
      end
  end.

(** [s.split(a)]. *)
Fixpoint split_on (a : ascii) (s : string) : list string :=
  match s with
  | EmptyString => [EmptyString]
  | String c s' =>
      if Ascii.eqb c a then EmptyString :: split_on a s'
      else match split_on a s' with
           | [] => [String c EmptyString]
           | h :: t => String c h :: t
           end
  end.

(** [sep.join(l)]. *)
Fixpoint join (sep : string) (l : list string) : string :=
  match l with
  | [] => ""
  | [x] => x
  | x :: l' => x +:+ sep +:+ join sep l'
  end.

(** [str(z)] for an integer. *)
Definition of_Z (z : Z) : string := NilZero.string_of_int (Z.to_int z).

Definition hex_digit (d : N) : ascii :=
  match String.get (N.to_nat d) "0123456789abcdef" with
  | Some c => c
  | None => "0"%char
  end.

(** ['%0<len>x' % n], keeping the [len] low digits. *)
Fixpoint hex (len : nat) (n : N) (acc : string) : string :=
  match len with
  | O => acc
  | S len' => hex len' (n / 16)%N (String (hex_digit (n mod 16)%N) acc)
  end.

End Str.

(** ** [pathlib]: absolute POSIX paths *)

Module Path.

Definition path := list string.

(** The components a string contributes to a path: empty and [.]
    components are dropped, [..] is kept. *)
Definition parse_parts (s : string) : list string :=
  List.filter (fun c => negb (String.eqb c "") && negb (String.eqb c "."))
    (Str.split_on "/" s).

(** [p / s]: an absolute [s] replaces [p]. *)
Definition joinpath (p : path) (s : string) : path :=
  if String.prefix "/" s then parse_parts s else p ++ parse_parts s.

Definition name (p : path) : string := List.last p "".

Definition parent (p : path) : path := removelast p.

(** The index at which [suffix] starts, when the name has one. *)
Definition suffix_at (n : string) : option nat :=
  match Str.rfind "." n with
  | Some i => if ((0 <? i) && (i <? String.length n - 1))%nat then Some i else None
  | None => None
  end.

Definition suffix (p : path) : string :=
  let n := name p in
  match suffix_at n with
  | Some i => String.substring i (String.length n - i) n
  | None => ""
  end.

Definition stem (p : path) : string :=
  let n := name p in
  match suffix_at n with
  | Some i => String.substring 0 i n
  | None => n
  end.

(** [p.resolve()] in a file system without symbolic links: [..] removes
    the component before it, and stays at the root there. *)
Definition resolve_step (acc : path) (c : string) : path :=
  if String.eqb c ".." then removelast acc else acc ++ [c].

Definition resolve (p : path) : path := fold_left resolve_step p [].

Definition str (p : path) : string :=
  match p with
  | [] => "/"
  | _ => String.concat "" (List.map (fun c => "/" +:+ c) p)
  end.

End Path.

Export Path.

Notation "p // s" := (joinpath p s) (at level 40, left associativity).

(** ** Values, exceptions and the file system *)

(** The JSON values the service stores in a metadata document. *)
Inductive value :=
  | VStr (s : string)
  | VInt (z : Z)
  | VList (l : list string).

#[global] Instance value_eq_dec : EqDecision value.
Proof. solve_decision. Defined.

Abbreviation dict := (gmap string value).

(** What a file holds. *)
Inductive content :=
  | Blob (b : list Byte.byte)
  | Doc (m : dict).

Inductive node :=
  | File (c : content)
  | Dir (es : gmap string node).

Inductive exn :=
  | RuntimeError (msg : string)
  | FileNotFoundError (p : string)
  | NotADirectoryError (p : string)
  | IsADirectoryError (p : string)
  | FileExistsError (p : string)
  | SameFileError (p : string)
  | JSONDecodeError
  | OSError (msg : string)
  | ConnectionError
  | HTTPException (status_code : Z) (detail : string).

(** [repr(e)]. *)
Definition repr (e : exn) : string :=
  match e with
  | RuntimeError m => "RuntimeError('" +:+ m +:+ "')"
  | FileNotFoundError p =>
      "FileNotFoundError(2, 'No such file or directory: " +:+ p +:+ "')"
  | NotADirectoryError p => "NotADirectoryError(20, 'Not a directory: " +:+ p +:+ "')"
  | IsADirectoryError p => "IsADirectoryError(21, 'Is a directory: " +:+ p +:+ "')"
  | FileExistsError p => "FileExistsError(17, 'File exists: " +:+ p +:+ "')"
  | SameFileError p => "SameFileError('" +:+ p +:+ "')"
  | JSONDecodeError => "JSONDecodeError('Expecting value: line 1 column 1 (char 0)')"
  | OSError m => "OSError('" +:+ m +:+ "')"
  | ConnectionError => "ConnectionError('Error connecting to redis')"
  | HTTPException c d => "HTTPException(status_code=" +:+ Str.of_Z c +:+ ", detail='" +:+ d +:+ "')"
  end.

Module FS.

Inductive result (A : Type) :=
  | Done (a : A)
  | Fail (e : exn).
Arguments Done {A} a.
Arguments Fail {A} e.

(** The node at a path without [..] components. *)
Fixpoint lookup_node (t : node) (p : path) : option node :=
  match p with
  | [] => Some t
  | c :: p' =>
      match t with
      | File _ => None
      | Dir es =>
          match es !! c with
          | Some n => lookup_node n p'
          | None => None
          end
      end
  end.

(** Replace or create the node at a path whose parent is a directory. *)
Fixpoint put_node (t : node) (p : path) (x : node) : option node :=
  match p with
  | [] => Some x
  | c :: p' =>
      match t with
      | File _ => None
      | Dir es =>
          match p' with
          | [] => Some (Dir (<[c := x]> es))
          | _ =>
              match es !! c with
              | Some n =>
                  match put_node n p' x with
                  | Some n' => Some (Dir (<[c := n']> es))
                  | None => None
                  end
              | None => None
              end
          end
      end
  end.

(** Path resolution as the operating system does it: walking [p] from the
    directory at [acc], every component is looked up in a directory, and
    [..] steps to the parent. The result is the path without [..] that [p]
    denotes; its last component need not exist. *)
Fixpoint locate_from (t : node) (acc : path) (p : path) : option path :=
  match p with
  | [] => Some acc
  | c :: p' =>
      match lookup_node t acc with
      | Some (Dir _) => locate_from t (resolve_step acc c) p'
      | _ => None
      end
  end.

Definition locate (t : node) (p : path) : option path := locate_from t [] p.

Definition stat (t : node) (p : path) : option node :=
  match locate t p with
  | Some q => lookup_node t q
  | None => None
  end.

(** [p.exists()] *)
Definition path_exists (t : node) (p : path) : bool :=
  match stat t p with
  | Some _ => true
  | None => false
  end.

(** [p.is_dir()] *)
Definition is_dir (t : node) (p : path) : bool :=
  match stat t p with
  | Some (Dir _) => true
  | _ => false
  end.

(** [p.is_file()] *)
Definition is_file (t : node) (p : path) : bool :=
  match stat t p with
  | Some (File _) => true
  | _ => false
  end.

(** [open(p, 'r').read()] *)
Definition read_file (t : node) (p : path) : result content :=
  match stat t p with
  | Some (File c) => Done c
  | Some (Dir _) => Fail (IsADirectoryError (str p))
  | None => Fail (FileNotFoundError (str p))
  end.

(** [open(p, 'w').write(c)]: creates or truncates the file. *)
Definition write_file (t : node) (p : path) (c : content) : result node :=
  match locate t p with
  | None => Fail (FileNotFoundError (str p))
  | Some q =>
      match lookup_node t q with
      | Some (Dir _) => Fail (IsADirectoryError (str p))
      | _ =>
          match put_node t q (File c) with
          | Some t' => Done t'
          | None => Fail (FileNotFoundError (str p))
          end
      end
  end.

(** [p.mkdir(parents=True, exist_ok=True)]: every prefix of [p] is made a
    directory in turn; a file in the way is an error. *)
Fixpoint mkdir_from (t : node) (cur : path) (p : path) : result node :=
  match p with
  | [] => Done t
  | c :: p' =>
      if String.eqb c ".." then mkdir_from t (removelast cur) p'
      else
        let q := cur ++ [c] in
        match lookup_node t q with
        | Some (Dir _) => mkdir_from t q p'
        | Some (File _) =>
            Fail (match p' with
                  | [] => FileExistsError (str q)
                  | _ => NotADirectoryError (str q)
                  end)
        | None =>
            match put_node t q (Dir ∅) with
            | Some t' => mkdir_from t' q p'
            | None => Fail (NotADirectoryError (str q))
            end
        end
  end.

Definition mkdir_p (t : node) (p : path) : result node := mkdir_from t [] p.

(** [shutil.copyfile(src, dst)] *)
Definition copyfile (t : node) (src dst : path) : result node :=
  if decide (resolve src = resolve dst) then Fail (SameFileError (str src))
  else
    match read_file t src with
    | Done c => write_file t dst c
    | Fail e => Fail e
    end.

End FS.

(** ** The world and the monad Python code runs in *)

(** What [subprocess.run] yields: a completed process together with the
    file system the child left behind, or a failure to launch. *)
Record CompletedProcess := {
  returncode : Z;
  stdout : string;
  stderr : string
}.

Inductive proc :=
  | Exited (p : CompletedProcess) (fs' : node)
  | LaunchError (e : exn).

(** Ghost record of what a run did: the metadata documents it wrote, the
    subprocesses it ran, and the exceptions its handler caught. It is
    written by the model only and never read by the code. *)
Inductive event :=
  | EvWrite (p : path) (m : dict)
  | EvRun (cmd : list string) (r : proc)
  | EvCaught (e : exn).

Record world := {
  w_fs : node;                      (* the file system *)
  w_meta : dict;                    (* the dictionary bound to [meta] *)
  w_entropy : nat -> N;             (* the random bits behind uuid4 *)
  w_drawn : nat;                    (* how many have been drawn *)
  w_broker_up : bool;               (* whether the broker answers *)
  w_queue : list (string * string); (* enqueued (task id, job id) *)
  w_trace : list event              (* ghost: what happened so far *)
}.

Definition set_fs (t : node) (w : world) : world :=
  {| w_fs := t; w_meta := w_meta w; w_entropy := w_entropy w;
     w_drawn := w_drawn w; w_broker_up := w_broker_up w;
     w_queue := w_queue w; w_trace := w_trace w |}.

Definition set_meta (m : dict) (w : world) : world :=
  {| w_fs := w_fs w; w_meta := m; w_entropy := w_entropy w;
     w_drawn := w_drawn w; w_broker_up := w_broker_up w;
     w_queue := w_queue w; w_trace := w_trace w |}.

Definition set_drawn (n : nat) (w : world) : world :=
  {| w_fs := w_fs w; w_meta := w_meta w; w_entropy := w_entropy w;
     w_drawn := n; w_broker_up := w_broker_up w;
     w_queue := w_queue w; w_trace := w_trace w |}.

Definition set_queue (q : list (string * string)) (w : world) : world :=
  {| w_fs := w_fs w; w_meta := w_meta w; w_entropy := w_entropy w;
     w_drawn := w_drawn w; w_broker_up := w_broker_up w;
     w_queue := q; w_trace := w_trace w |}.

Definition log_event (e : event) (w : world) : world :=
  {| w_fs := w_fs w; w_meta := w_meta w; w_entropy := w_entropy w;
     w_drawn := w_drawn w; w_broker_up := w_broker_up w;
     w_queue := w_queue w; w_trace := w_trace w ++ [e] |}.

Module Py.

(** How a statement ends: it falls through with a value, executes
    [return v], or raises. *)
Inductive res (A : Type) :=
  | Ok (a : A)
  | Return (v : dict)
  | Raise (e : exn).
Arguments Ok {A} a.
Arguments Return {A} v.
Arguments Raise {A} e.

Definition M (A : Type) : Type := world -> res A * world.

Definition ret {A} (a : A) : M A := fun w => (Ok a, w).

Definition bind {A B} (c : M A) (k : A -> M B) : M B :=
  fun w =>
    match c w with
    | (Ok a, w') => k a w'
    | (Return v, w') => (Return v, w')
    | (Raise e, w') => (Raise e, w')
    end.

Definition raise {A} (e : exn) : M A := fun w => (Raise e, w).

(** [return v] *)
Definition return_ {A} (v : dict) : M A := fun w => (Return v, w).

(** [try: body except Exception as e: handler(e)] *)
Definition try_except {A} (body : M A) (handler : exn -> M A) : M A :=
  fun w =>
    match body w with
    | (Raise e, w') => handler e (log_event (EvCaught e) w')
    | r => r
    end.

(** A function body that ends in [return]: the call yields the returned
    value. The bodies below never fall off their end. *)
Definition call (body : M unit) : M dict :=
  fun w =>
    match body w with
    | (Ok _, w') => (Ok ∅, w')
    | (Return v, w') => (Ok v, w')
    | (Raise e, w') => (Raise e, w')
    end.

(** Lift a file-system operation that only reads. *)
Definition inspect {A} (f : node -> A) : M A := fun w => (Ok (f (w_fs w)), w).

(** Lift a file-system operation that writes or fails. *)
Definition effect (f : node -> FS.result node) : M unit :=
  fun w =>
    match f (w_fs w) with
    | FS.Done t' => (Ok tt, set_fs t' w)
    | FS.Fail e => (Raise e, w)
    end.

Definition lift_result {A} (f : node -> FS.result A) : M A :=
  fun w =>
    match f (w_fs w) with
    | FS.Done a => (Ok a, w)
    | FS.Fail e => (Raise e, w)
    end.

(** [meta = m] *)
Definition meta_bind (m : dict) : M unit := fun w => (Ok tt, set_meta m w).

(** [meta[k] = v] *)
Definition meta_set (k : string) (v : value) : M unit :=
  fun w => (Ok tt, set_meta (<[k := v]> (w_meta w)) w).

(** The dictionary [meta] is bound to. *)
Definition meta_obj : M dict := fun w => (Ok (w_meta w), w).

End Py.

Export Py.

Declare Scope py_scope.
Delimit Scope py_scope with py.
Notation "x <- c ;; k" := (bind c (fun x => k))
  (at level 100, c at next level, right associativity) : py_scope.
Notation "c ;; k" := (bind c (fun _ => k))
  (at level 100, right associativity) : py_scope.
#[local] Open Scope py_scope.

(** ** The module [backend/app.py] *)

(** One part of a multipart upload: [f.filename] and the bytes [f.read()]
    yields. *)
Record UploadFile := {
  filename : option string;
  data : list Byte.byte
}.

(** [FileResponse(path, media_type=..., filename=...)] *)
Record FileResponse := {
  fr_path : string;
  fr_media_type : string;
  fr_filename : string
}.

(** The body returned by [create_job]. *)
Record JobCreated := {
  jc_job_id : string;
  jc_status : string;
  jc_input_count : nat
}.

(** The body returned by [get_job]; [None] is JSON [null]. *)
Record JobStatus := {
  js_job_id : string;
  js_status : value;
  js_input_count : value;
  js_files : value;
  js_error : option value;
  js_warning : option value;
  js_warning_3dgs : option value;
  js_hint : option value;
  js_points_ply_exists : bool;
  js_points_ply_url : option string;
  js_splat_exists : bool;
  js_splat_url : option string
}.

(** *** Library calls *)

Module Lib.

(** [p.exists()] *)
Definition exists_ (p : path) : M bool := inspect (fun t => FS.path_exists t p).

(** [p.mkdir(parents=True, exist_ok=True)] *)
Definition mkdir (p : path) : M unit := effect (fun t => FS.mkdir_p t p).

(** [p.read_text(encoding="utf-8")] *)
Definition read_text (p : path) : M content :=
  lift_result (fun t => FS.read_file t p).

(** [p.write_text(c, encoding="utf-8")] and [p.write_bytes(c)] *)
Definition write (p : path) (c : content) : M unit :=
  effect (fun t => FS.write_file t p c).

(** [shutil.copyfile(src, dst)] *)
Definition copyfile (src dst : path) : M unit :=
  effect (fun t => FS.copyfile t src dst).

(** [json.loads(c)] for a metadata document. *)
Definition json_loads (c : content) : M dict :=
  match c with
  | Doc m => ret m
  | Blob _ => raise JSONDecodeError
  end.

(** [json.dumps(m, ensure_ascii=False, indent=2)] *)
Definition json_dumps (m : dict) : content := Doc m.

(** The integer of [uuid.uuid4()]: 128 random bits with the variant and
    version fields set as [uuid.UUID.__init__] does for [version=4]. *)
Definition uuid4_int (r : N) : N :=
  let i := (r mod 2 ^ 128)%N in
  let i := N.lor (N.ldiff i (N.shiftl 0xc000 48)) (N.shiftl 0x8000 48) in
  N.lor (N.ldiff i (N.shiftl 0xf000 64)) (N.shiftl 4 76).

(** [uuid.uuid4().hex] *)
Definition uuid4_hex : M string :=
  fun w =>
    (Ok (Str.hex 32 (uuid4_int (w_entropy w (w_drawn w))) ""),
     set_drawn (S (w_drawn w)) w).

(** [str(uuid.uuid4())], the form of an rq task id. *)
Definition uuid4_str : M string :=
  h <- uuid4_hex ;;
  ret (String.substring 0 8 h +:+ "-" +:+ String.substring 8 4 h +:+ "-"
       +:+ String.substring 12 4 h +:+ "-" +:+ String.substring 16 4 h +:+ "-"
       +:+ String.substring 20 12 h).

(** [q.enqueue(recon_job, job_id).get_id()]: the task is pushed to the
    broker under a fresh id; an unreachable broker raises. *)
Definition enqueue (job_id : string) : M string :=
  fun w =>
    if w_broker_up w then
      (rq_id <- uuid4_str ;;
       (fun w' => (Ok rq_id, set_queue (w_queue w' ++ [(rq_id, job_id)]) w'))) w
    else (Raise ConnectionError, w).

(** Ghost step: note that a metadata document was written. *)
Definition log_write (p : path) (m : dict) : M unit :=
  fun w => (Ok tt, log_event (EvWrite p m) w).

End Lib.

Section App.

(** [__file__] of the module. *)
Variable file_ : path.

(** [subprocess.run(cmd, capture_output=True, text=True)] on the current
    file system. *)
Variable os_run : list string -> node -> proc.

Definition subprocess_run (cmd : list string) : M CompletedProcess :=
  fun w =>
    match os_run cmd (w_fs w) with
    | Exited p t' => (Ok p, log_event (EvRun cmd (Exited p t')) (set_fs t' w))
    | LaunchError e => (Raise e, log_event (EvRun cmd (LaunchError e)) w)
    end.

(** *** Paths / Config *)

Definition BASE_DIR : path := parent (resolve file_).
Definition DATA_DIR : path := BASE_DIR // "data" // "jobs".

(** [DATA_DIR.mkdir(parents=True, exist_ok=True)] at import time. *)
Definition module_init : M unit := Lib.mkdir DATA_DIR.

Definition RUN_COLMAP_SH : path := BASE_DIR // "recon" // "run_colmap.sh".
Definition RUN_3DGS_SH : path := BASE_DIR // "recon" // "run_3dgs.sh".

(** *** Helpers *)

Definition _job_paths (job_id : string) : path * path * path * path :=
  let job_dir := DATA_DIR // job_id in
  let input_dir := job_dir // "input" in
  let output_dir := job_dir // "output" in
  let meta_path := job_dir // "meta.json" in
  (job_dir, input_dir, output_dir, meta_path).

Definition _read_meta (meta_path : path) : M dict :=
  e <- Lib.exists_ meta_path ;;
  if negb e then ret ∅
  else
    c <- Lib.read_text meta_path ;;
    Lib.json_loads c.

Definition _write_meta (meta_path : path) (meta : dict) : M unit :=
  Lib.mkdir (parent meta_path) ;;
  Lib.write meta_path (Lib.json_dumps meta) ;;
  Lib.log_write meta_path meta.

Definition _safe_filename (name : string) : string :=
  Str.replace_char "\" "_" (Str.replace_char "/" "_" name).

Definition _tail (s : option string) (n : nat) : string :=
  Str.last_chars n (default "" s).

(** The first candidate that exists. *)
Fixpoint first_existing (t : node) (candidates : list path) : option path :=
  match candidates with
  | [] => None
  | p :: rest => if FS.path_exists t p then Some p else first_existing t rest
  end.

Definition ply_candidates (output_dir : path) : list path :=
  [ output_dir // "points.ply";
    output_dir // "points_dense.ply";
    output_dir // "points_sparse.ply";
    output_dir // "dense" // "0" // "points.ply" ].

Definition _best_ply_path (output_dir : path) : M (option path) :=
  inspect (fun t => first_existing t (ply_candidates output_dir)).

Definition splat_candidates (output_dir : path) : list path :=
  [ output_dir // "scene.splat";
    output_dir // "gaussians.splat";
    output_dir // "3dgs" // "scene.splat";
    output_dir // "3dgs" // "gaussians.splat" ].

Definition _best_splat_path (output_dir : path) : M (option path) :=
  inspect (fun t => first_existing t (splat_candidates output_dir)).

(** [p and p.exists()] for an optional path. *)
Definition and_exists (p : option path) : M bool :=
  match p with
  | Some p => Lib.exists_ p
  | None => ret false
  end.

(** [meta.get(k, "")] where [meta[k]] is a string. *)
Definition get_str (m : dict) (k : string) : string :=
  match m !! k with
  | Some (VStr s) => s
  | _ => ""
  end.

(** [v == s] for a string literal [s]; [None] is Python's [None]. *)
Definition is_str (v : option value) (s : string) : bool :=
  match v with
  | Some (VStr s') => String.eqb s' s
  | _ => false
  end.

Definition CUDA_MESSAGE : string := "Dense stereo reconstruction requires CUDA".

Definition HINT_TEXT : string :=
  "3DGS/Dense는 CUDA GPU 필요. 배포는 GPU 서버에서 학습/생성하도록 분리하는 게 정답.".

(** *** Worker task *)

(** The statements of [recon_job] inside [try:]. *)
Definition recon_try (input_dir output_dir meta_path : path) : M unit :=
  let cmd := ["bash"; str RUN_COLMAP_SH; str input_dir; str output_dir] in
  proc <- subprocess_run cmd ;;
  meta_set "last_cmd" (VStr (Str.join " " cmd)) ;;
  meta_set "stdout_tail" (VStr (_tail (Some (stdout proc)) 6000)) ;;
  meta_set "stderr_tail" (VStr (_tail (Some (stderr proc)) 6000)) ;;
  ply <- _best_ply_path output_dir ;;
  (if negb (returncode proc =? 0)%Z then
     e <- and_exists ply ;;
     if e then
       meta_set "status" (VStr "done_sparse") ;;
       meta_set "warning"
         (VStr ("COLMAP pipeline returned code=" +:+ Str.of_Z (returncode proc)
                +:+ ", but sparse output exists."))
     else
       meta_set "status" (VStr "failed") ;;
       meta_set "error"
         (VStr ("COLMAP script failed (code=" +:+ Str.of_Z (returncode proc) +:+ ")")) ;;
       meta <- meta_obj ;;
       _write_meta meta_path meta ;;
       return_ meta
   else ret tt) ;;
  ply <- _best_ply_path output_dir ;;
  match ply with
  | None =>
      meta_set "status" (VStr "failed") ;;
      meta_set "error" (VStr "No PLY produced (sparse/dense not found)") ;;
      meta <- meta_obj ;;
      _write_meta meta_path meta ;;
      return_ meta
  | Some ply =>
      let unified := output_dir // "points.ply" in
      (if decide (resolve ply <> resolve unified) then
         Lib.copyfile ply unified ;;
         meta_set "points_ply_name" (VStr (name unified))
       else
         meta_set "points_ply_name" (VStr (name ply))) ;;
      meta_set "points_ply" (VStr (str unified)) ;;
      has_3dgs <- Lib.exists_ RUN_3DGS_SH ;;
      (if has_3dgs then
         meta_set "status" (VStr "running_3dgs") ;;
         meta <- meta_obj ;;
         _write_meta meta_path meta ;;
         let cmd2 := ["bash"; str RUN_3DGS_SH; str input_dir; str output_dir] in
         proc2 <- subprocess_run cmd2 ;;
         meta_set "last_cmd_3dgs" (VStr (Str.join " " cmd2)) ;;
         meta_set "stdout_tail_3dgs" (VStr (_tail (Some (stdout proc2)) 6000)) ;;
         meta_set "stderr_tail_3dgs" (VStr (_tail (Some (stderr proc2)) 6000)) ;;
         splat <- _best_splat_path output_dir ;;
         e <- (if (returncode proc2 =? 0)%Z then and_exists splat else ret false) ;;
         match e, splat with
         | true, Some splat =>
             meta_set "status" (VStr "done_3dgs") ;;
             meta_set "splat" (VStr (str splat)) ;;
             meta_set "splat_name" (VStr (name splat)) ;;
             meta <- meta_obj ;;
             _write_meta meta_path meta ;;
             return_ meta
         | _, _ =>
             meta_set "status" (VStr "done_sparse") ;;
             meta_set "warning_3dgs"
               (VStr ("3DGS failed (code=" +:+ Str.of_Z (returncode proc2)
                      +:+ "). Sparse result is available.")) ;;
             meta <- meta_obj ;;
             (if Str.contains CUDA_MESSAGE
                   (get_str meta "stderr_tail_3dgs" +:+ get_str meta "stderr_tail")
              then meta_set "hint" (VStr HINT_TEXT)
              else ret tt) ;;
             meta <- meta_obj ;;
             _write_meta meta_path meta ;;
             return_ meta
         end
       else ret tt) ;;
      meta <- meta_obj ;;
      (if negb (is_str (meta !! "status") "done_sparse"
                || is_str (meta !! "status") "done_3dgs")
       then meta_set "status" (VStr "done_sparse")
       else ret tt) ;;
      meta <- meta_obj ;;
      _write_meta meta_path meta ;;
      return_ meta
  end.

(** The [except Exception as e:] clause of [recon_job]. *)
Definition recon_except (meta_path : path) (e : exn) : M unit :=
  meta_set "status" (VStr "failed") ;;
  meta_set "error" (VStr ("Exception: " +:+ repr e)) ;;
  meta <- meta_obj ;;
  _write_meta meta_path meta ;;
  return_ meta.

(** The statements of [recon_job] before [try:]: the job directory must
    exist, the record is marked [running], and the reconstruction script
    must be installed. *)
Definition recon_setup (job_id : string) : M unit :=
  let '(job_dir, input_dir, output_dir, meta_path) := _job_paths job_id in
  e <- Lib.exists_ job_dir ;;
  (if negb e then raise (RuntimeError ("job_dir not found: " +:+ str job_dir))
   else ret tt) ;;
  meta <- _read_meta meta_path ;;
  meta_bind meta ;;
  meta_set "status" (VStr "running") ;;
  meta <- meta_obj ;;
  _write_meta meta_path meta ;;
  Lib.mkdir input_dir ;;
  Lib.mkdir output_dir ;;
  e <- Lib.exists_ RUN_COLMAP_SH ;;
  if negb e then
    meta_set "status" (VStr "failed") ;;
    meta_set "error" (VStr ("run_colmap.sh not found: " +:+ str RUN_COLMAP_SH)) ;;
    meta <- meta_obj ;;
    _write_meta meta_path meta ;;
    return_ meta
  else ret tt.

Definition recon_job (job_id : string) : M dict :=
  call
    (let '(job_dir, input_dir, output_dir, meta_path) := _job_paths job_id in
     recon_setup job_id ;;
     try_except (recon_try input_dir output_dir meta_path) (recon_except meta_path)).

(** *** Routes *)

Definition health : M bool := ret true.

(** The loop of [create_job] over the uploaded files; [saved] is the list
    built so far. *)
Fixpoint save_files (input_dir : path) (files : list UploadFile)
    (saved : list string) : M (list string) :=
  match files with
  | [] => ret saved
  | f :: rest =>
      let name_ := _safe_filename (match filename f with
                                   | Some n => if String.eqb n "" then "image.jpg" else n
                                   | None => "image.jpg"
                                   end) in
      let out_path := input_dir // name_ in
      e <- Lib.exists_ out_path ;;
      out_path <- (if e then
                     h <- Lib.uuid4_hex ;;
                     ret (input_dir // (stem out_path +:+ "_" +:+ String.substring 0 6 h
                                        +:+ suffix out_path))
                   else ret out_path) ;;
      Lib.write out_path (Blob (data f)) ;;
      save_files input_dir rest (saved ++ [name out_path])
  end.

Definition create_job (files : list UploadFile) : M JobCreated :=
  if (length files <? 2)%nat then
    raise (HTTPException 400 "Need at least 2 images")
  else
    h <- Lib.uuid4_hex ;;
    let job_id := String.substring 0 12 h in
    let '(job_dir, input_dir, output_dir, meta_path) := _job_paths job_id in
    Lib.mkdir input_dir ;;
    Lib.mkdir output_dir ;;
    saved <- save_files input_dir files [] ;;
    meta_bind (<["files" := VList saved]>
               (<["input_count" := VInt (Z.of_nat (length saved))]>
                (<["status" := VStr "queued"]>
                 (<["job_id" := VStr job_id]> ∅)))) ;;
    meta <- meta_obj ;;
    _write_meta meta_path meta ;;
    rq_id <- Lib.enqueue job_id ;;
    meta_set "rq_id" (VStr rq_id) ;;
    meta <- meta_obj ;;
    _write_meta meta_path meta ;;
    ret {| jc_job_id := job_id; jc_status := "queued";
           jc_input_count := length saved |}.

Definition get_job (job_id : string) : M JobStatus :=
  let '(job_dir, input_dir, output_dir, meta_path) := _job_paths job_id in
  e <- Lib.exists_ meta_path ;;
  if negb e then raise (HTTPException 404 "Job not found")
  else
    meta <- _read_meta meta_path ;;
    ply <- _best_ply_path output_dir ;;
    splat <- _best_splat_path output_dir ;;
    let status := default (VStr "unknown") (meta !! "status") in
    ply_exists <- and_exists ply ;;
    ply_exists' <- and_exists ply ;;
    splat_exists <- and_exists splat ;;
    splat_exists' <- and_exists splat ;;
    ret {| js_job_id := job_id;
           js_status := status;
           js_input_count := default (VInt 0) (meta !! "input_count");
           js_files := default (VList []) (meta !! "files");
           js_error := meta !! "error";
           js_warning := meta !! "warning";
           js_warning_3dgs := meta !! "warning_3dgs";
           js_hint := meta !! "hint";
           js_points_ply_exists := ply_exists;
           js_points_ply_url :=
             if ply_exists' then Some ("/api/jobs/" +:+ job_id +:+ "/points.ply")
             else None;
           js_splat_exists := splat_exists;
           js_splat_url :=
             if splat_exists' then Some ("/api/jobs/" +:+ job_id +:+ "/scene.splat")
             else None |}.

Definition download_points_ply (job_id : string) : M FileResponse :=
  let '(job_dir, input_dir, output_dir, meta_path) := _job_paths job_id in
  ply <- _best_ply_path output_dir ;;
  e <- and_exists ply ;;
  match e, ply with
  | true, Some ply =>
      ret {| fr_path := str ply; fr_media_type := "application/octet-stream";
             fr_filename := "points.ply" |}
  | _, _ => raise (HTTPException 404 "PLY not found (job not done?)")
  end.

Definition download_splat (job_id : string) : M FileResponse :=
  let '(job_dir, input_dir, output_dir, meta_path) := _job_paths job_id in
  splat <- _best_splat_path output_dir ;;
  e <- and_exists splat ;;
  match e, splat with
  | true, Some splat =>
      ret {| fr_path := str splat; fr_media_type := "application/octet-stream";
             fr_filename := "scene.splat" |}
  | _, _ => raise (HTTPException 404 "SPLAT not found (3DGS not done?)")
  end.

End App.

(** ** Vocabulary of the statements *)

(** What a run added to the ghost trace. *)
Definition new_events (w w' : world) : list event :=
  drop (length (w_trace w)) (w_trace w').

(** The metadata documents written, in order. *)
Definition writes (tr : list event) : list dict :=
  tr ≫= (fun e => match e with EvWrite _ m => [m] | _ => [] end).

(** The subprocesses run, in order, each with its outcome. *)
Definition runs (tr : list event) : list (list string * proc) :=
  tr ≫= (fun e => match e with EvRun cmd r => [(cmd, r)] | _ => [] end).

(** The exceptions the handler of [recon_job] caught. *)
Definition caught (tr : list event) : list exn :=
  tr ≫= (fun e => match e with EvCaught x => [x] | _ => [] end).

(** The [status] recorded by each write. *)
Definition statuses (tr : list event) : list (option value) :=
  (fun m : dict => m !! "status") <$> writes tr.

(** The state machine of the pipeline orchestrator, as the specification
    draws it. *)
Inductive transition : string -> string -> Prop :=
  | t_pick_up : transition "queued" "running"
  | t_no_artifact : transition "running" "failed"
  | t_sparse_only : transition "running" "done_sparse"
  | t_train : transition "running" "running_3dgs"
  | t_splat : transition "running_3dgs" "done_3dgs"
  | t_splat_failed : transition "running_3dgs" "done_sparse"
  | t_fault_3dgs : transition "running_3dgs" "failed".

(** How far along the state machine a status is. *)
Definition rank (s : option value) : nat :=
  match s with
  | Some (VStr "queued") => 0
  | Some (VStr "running") => 1
  | Some (VStr "running_3dgs") => 2
  | _ => 3
  end.

(** One recorded status follows another: it repeats it or takes a
    transition of the state machine. *)
Definition follows (a b : option value) : Prop :=
  a = b \/ exists s1 s2, a = Some (VStr s1) /\ b = Some (VStr s2) /\ transition s1 s2.

(** A sequence of recorded statuses that never regresses. *)
Fixpoint monotone (l : list (option value)) : Prop :=
  match l with
  | a :: (b :: _) as l' => follows a b /\ rank a <= rank b /\ monotone l'
  | _ => True
  end.

(** A sequence with consecutive repeats merged. *)
Fixpoint merge_repeats (l : list (option value)) : list (option value) :=
  match l with
  | a :: (b :: _) as l' =>
      if decide (a = b) then merge_repeats l' else a :: merge_repeats l'
  | _ => l
  end.

(** The keys [recon_job] assigns. *)
Definition assigned_keys : list string :=
  [ "status";
    "last_cmd"; "stdout_tail"; "stderr_tail";
    "last_cmd_3dgs"; "stdout_tail_3dgs"; "stderr_tail_3dgs";
    "points_ply"; "points_ply_name"; "splat"; "splat_name";
    "error"; "warning"; "warning_3dgs"; "hint" ].

(** [m] differs from [m0] at most at the assigned keys. *)
Definition same_elsewhere (m0 m : dict) : Prop :=
  forall k, k ∉ assigned_keys -> m !! k = m0 !! k.

(** The document [recon_job] starts from: what [meta.json] holds, or the
    empty record when there is none. *)
Definition initial_meta (t : node) (meta_path : path) : dict :=
  match FS.read_file t meta_path with
  | FS.Done (Doc m) => m
  | _ => ∅
  end.

(** A name that denotes an entry of a directory: not empty, not [.] or
    [..], and without a separator. *)
Definition plain_name (s : string) : bool :=
  negb (String.eqb s "") && negb (String.eqb s ".") && negb (String.eqb s "..")
  && negb (Str.contains "/" s).

(** The name [create_job] gives an upload whose path [p] is taken: the
    stem, an underscore, the first six hex digits of a uuid and the suffix. *)
Definition renamed (p : path) (n : N) : string :=
  stem p +:+ "_" +:+ String.substring 0 6 (Str.hex 32 n "") +:+ suffix p.

(** The name under which [create_job] first tries to store an upload. *)
Definition sanitized (f : UploadFile) : string :=
  _safe_filename (match filename f with
                  | Some n => if String.eqb n "" then "image.jpg" else n
                  | None => "image.jpg"
                  end).

(** The job id the next call of [create_job] draws. *)
Definition next_job_id (w : world) : string :=
  String.substring 0 12 (Str.hex 32 (Lib.uuid4_int (w_entropy w (w_drawn w))) "").

(** A directory none of whose entries is a directory. *)
Definition flat_dir (t : node) (d : path) : Prop :=
  FS.is_dir t d = true /\ forall k, k <> ".." -> FS.is_dir t (d ++ [k]) = false.

(** Two worlds that differ at most in the file system and in how many
    random numbers were drawn. *)
Definition same_session (w w' : world) : Prop :=
  w_meta w' = w_meta w /\ w_trace w' = w_trace w /\ w_entropy w' = w_entropy w
  /\ w_broker_up w' = w_broker_up w /\ w_queue w' = w_queue w.

(** The document [create_job] first writes for a job. *)
Definition queued_doc (job_id : string) (saved : list string) : dict :=
  <["files" := VList saved]>
    (<["input_count" := VInt (Z.of_nat (length saved))]>
       (<["status" := VStr "queued"]>
          (<["job_id" := VStr job_id]> ∅))).

(** [bool(p and p.exists())] for the result [p] of a resolver. *)
Definition found (p : option path) : bool :=
  match p with
  | Some _ => true
  | None => false
  end.

(** The job's document can be written, and the artifact [ply] and the
    unified file of [output_dir] both hold [x]. *)
Definition intact (t : node) (job_dir output_dir ply : path) (x : content) : Prop :=
  FS.is_dir t job_dir = true
  /\ FS.is_dir t (job_dir ++ ["meta.json"]) = false
  /\ FS.read_file t ply = FS.Done x
  /\ FS.read_file t (output_dir ++ ["points.ply"]) = FS.Done x.

(** [k] is one of the keys [recon_job] assigns. *)
Definition is_assigned (k : string) : bool :=
  existsb (String.eqb k) assigned_keys.

(** At a point where two branches of [recon_job] meet: the dictionary
    still differs from the initial document at assigned keys only, and its
    status is the one before the branch or [done_sparse]. *)
Definition meta_step (m0 : dict) (prev : option value) (m : dict) : Prop :=
  same_elsewhere m0 m
  /\ (m !! "status" = prev \/ m !! "status" = Some (VStr "done_sparse")).

(** The status sequences a run of the worker task can record. *)
Definition worker_statuses : list (list (option value)) :=
  let s := fun x => Some (VStr x) in
  [ [];
    [s "running"];
    [s "running"; s "failed"];
    [s "running"; s "done_sparse"];
    [s "running"; s "running_3dgs"];
    [s "running"; s "running_3dgs"; s "done_3dgs"];
    [s "running"; s "running_3dgs"; s "done_sparse"];
    [s "running"; s "running_3dgs"; s "failed"] ].

(** What holds of every run of the worker task: [l] is the trace it adds,
    [r] how it ends and [t'] the file system it leaves, for a job whose
    directory is [jd], whose metadata document is at [mp] and held [m0] at
    the start; [r0] is how the setup steps ended and [resA] what launching
    the reconstructor [cmdA] after them yields. *)
Record run_facts (jd mp : path) (m0 : dict) (r0 : res unit)
    (cmdA : list string) (resA : proc)
    (l : list event) (r : res dict) (t' : node) : Prop := {
  rf_frame : Forall (same_elsewhere m0) (writes l);
  rf_result : forall m, r = Ok m -> same_elsewhere m0 m /\ last (writes l) = Some m;
  rf_statuses : statuses l ∈ worker_statuses;
  rf_caught :
    forall e, e ∈ caught l ->
      caught l = [e] /\
      ((exists m, r = Ok m /\ m !! "status" = Some (VStr "failed")
                  /\ m !! "error" = Some (VStr ("Exception: " +:+ repr e)))
       \/ (exists e', r = Raise e'
                      /\ (FS.is_dir t' jd = false \/ FS.is_dir t' mp = true)));
  rf_raise : forall e, r = Raise e -> caught l = [] -> runs l = [];
  rf_launch : forall cmd e, (cmd, LaunchError e) ∈ runs l -> caught l = [e];
  rf_first_run :
    forall cmd res rest, runs l = (cmd, res) :: rest ->
      r0 = Ok tt /\ cmd = cmdA /\ res = resA;
  rf_not_return : forall v, r <> Return v
}.

(** What can be observed of a node through a path: nothing there, a
    directory, or a file and what it holds. *)
Definition kind (n : option node) : option (option content) :=
  match n with
  | Some (File c) => Some (Some c)
  | Some (Dir _) => Some None
  | None => None
  end.

Definition dirb (n : option node) : bool :=
  match n with
  | Some (Dir _) => true
  | _ => false
  end.

(** A node that has nothing below it. *)
Definition leafy (n : node) : Prop :=
  match n with
  | File _ => True
  | Dir es => es = ∅
  end.

(** The resolver's contract in the specification's words: the first
    existing candidate wins, and the result is absent when none exists. *)
Definition first_wins (t : node) (candidates : list path) (r : option path) : Prop :=
  match r with
  | Some p =>
      exists before after,
        candidates = before ++ p :: after
        /\ FS.path_exists t p = true
        /\ Forall (fun q => FS.path_exists t q = false) before
  | None => Forall (fun q => FS.path_exists t q = false) candidates
  end.

(** ** Example worlds, for evaluating the model *)

Module Demo.
Import Byte.

(** The module lives at [/srv/backend/app.py]. *)
Definition file0 : path := ["srv"; "backend"; "app.py"].

Definition jobs0 : path := ["srv"; "backend"; "data"; "jobs"].

(** A deployment with the reconstruction script only, and no job yet. *)
Definition fs0 : node :=
  Dir {[ "srv" :=
    Dir {[ "backend" :=
      Dir {[ "recon" := Dir {[ "run_colmap.sh" := File (Blob []) ]};
             "data" := Dir {[ "jobs" := Dir ∅ ]} ]} ]} ]}.

(** The same with the splat trainer installed. *)
Definition fs1 : node :=
  Dir {[ "srv" :=
    Dir {[ "backend" :=
      Dir {[ "recon" := Dir {[ "run_colmap.sh" := File (Blob []);
                               "run_3dgs.sh" := File (Blob []) ]};
             "data" := Dir {[ "jobs" := Dir ∅ ]} ]} ]} ]}.

Definition world0 (t : node) : world :=
  {| w_fs := t; w_meta := ∅; w_entropy := fun _ => 0%N; w_drawn := 0;
     w_broker_up := true; w_queue := []; w_trace := [] |}.

Definition upload (n : string) (b : list byte) : UploadFile :=
  {| filename := Some n; data := b |}.

(** The id of the first job created in [world0]. *)
Definition job0 : string := "000000000000".

Definition out0 : path := jobs0 ++ [job0; "output"].

Definition cuda_text : string := "Dense stereo reconstruction requires CUDA".

(** Scripts: what [bash <script> <input> <output>] does. *)
Definition is_colmap (cmd : list string) : bool :=
  match cmd with
  | [_; s; _; _] => String.eqb s "/srv/backend/recon/run_colmap.sh"
  | _ => false
  end.

Definition exit_with (code : Z) (err : string) (t : node) : proc :=
  Exited {| returncode := code; stdout := ""; stderr := err |} t.

Definition put_file (p : path) (b : list byte) (t : node) : node :=
  match FS.write_file t p (Blob b) with
  | FS.Done t' => t'
  | FS.Fail _ => t
  end.

(** The reconstructor leaves a sparse point cloud and fails in its dense
    stage; the trainer, when run, fails for the same reason. *)
Definition sparse_only (cmd : list string) (t : node) : proc :=
  if is_colmap cmd then
    exit_with 1 cuda_text (put_file (out0 ++ ["points_sparse.ply"]) [x70; x6c; x79] t)
  else exit_with 1 cuda_text t.

(** The reconstructor succeeds and the trainer leaves a splat. *)
Definition full_success (cmd : list string) (t : node) : proc :=
  if is_colmap cmd then
    exit_with 0 "" (put_file (out0 ++ ["points_sparse.ply"]) [x70; x6c; x79] t)
  else exit_with 0 "" (put_file (out0 ++ ["scene.splat"]) [x73] t).

(** The reconstructor fails and leaves nothing. *)
Definition total_failure (cmd : list string) (t : node) : proc :=
  exit_with 2 "boom" t.

(** Launching [bash] fails. *)
Definition no_bash (cmd : list string) (t : node) : proc :=
  LaunchError (OSError "bash").

(** A source of random numbers whose draws differ in their first hex
    digits. *)
Definition world1 (t : node) : world :=
  {| w_fs := t; w_meta := ∅; w_entropy := fun n => N.shiftl (N.of_nat n) 104;
     w_drawn := 0; w_broker_up := true; w_queue := []; w_trace := [] |}.

(** A request of two uploads with the same name. *)
Definition two_uploads : list UploadFile := [upload "a.jpg" [x01]; upload "a.jpg" [x02]].

(** A request of two uploads both named [.]. *)
Definition dot_uploads : list UploadFile := [upload "." [x01]; upload "." [x02]].

(** The world after [two_uploads] were submitted in [world0 t]. *)
Definition created (t : node) : world := snd (create_job file0 two_uploads (world0 t)).

(** What the [n]-th subprocess of a trace returned, and the file system
    it left. *)
Definition exit_of (tr : list event) (n : nat) : CompletedProcess :=
  match runs tr !! n with
  | Some (_, Exited p _) => p
  | _ => {| returncode := -1; stdout := ""; stderr := "" |}
  end.

Definition left_by (tr : list event) (n : nat) : node :=
  match runs tr !! n with
  | Some (_, Exited _ t) => t
  | _ => Dir ∅
  end.

(** The record a call returned, empty when it raised. *)
Definition returned (r : res dict * world) : dict :=
  match fst r with
  | Ok m => m
  | _ => ∅
  end.

(** A deployment on which the reconstruction script is not installed. *)
Definition fs_bare : node :=
  Dir {[ "srv" := Dir {[ "backend" := Dir {[ "data" := Dir {[ "jobs" := Dir ∅ ]} ]} ]} ]}.

(** [world0] with the broker out of reach. *)
Definition world_down (t : node) : world :=
  {| w_fs := t; w_meta := ∅; w_entropy := fun _ => 0%N; w_drawn := 0;
     w_broker_up := false; w_queue := []; w_trace := [] |}.

(** The reconstructor exits with 0 and leaves nothing. *)
Definition empty_success (cmd : list string) (t : node) : proc :=
  exit_with 0 "" t.

End Demo.

(** Weakest precondition of a computation: [Q] holds of how it ends and of
    the world it leaves. *)
Definition wp {A} (c : M A) (Q : res A -> world -> Prop) (w : world) : Prop :=
  Q (fst (c w)) (snd (c w)).
(* ================================================================== *)
(** * Part II: properties *)
(* ================================================================== *)

(** ** Reasoning about runs *)

Section WP.
Context {A B : Type}.
Implicit Types (w : world).

Lemma wp_ret (a : A) (Q : res A -> world -> Prop) w :
  Q (Ok a) w -> wp (ret a) Q w.
Proof. exact id. Qed.

Lemma wp_raise e (Q : res A -> world -> Prop) w :
  Q (Raise e) w -> wp (raise e) Q w.
Proof. exact id. Qed.

Lemma wp_return v (Q : res A -> world -> Prop) w :
  Q (Return v) w -> wp (return_ v) Q w.
Proof. exact id. Qed.

Lemma wp_bind (c : M A) (k : A -> M B) (Q : res B -> world -> Prop) w :
  wp c (fun r w1 => match r with
                    | Ok a => wp (k a) Q w1
                    | Return v => Q (Return v) w1
                    | Raise e => Q (Raise e) w1
                    end) w ->
  wp (bind c k) Q w.
Proof. unfold wp, bind. destruct (c w) as [[a|v|e] w1]; exact id. Qed.

Lemma wp_mono (c : M A) (Q Q' : res A -> world -> Prop) w :
  (forall r w1, Q r w1 -> Q' r w1) -> wp c Q w -> wp c Q' w.
Proof. unfold wp. auto. Qed.

Lemma wp_inspect (f : node -> A) (Q : res A -> world -> Prop) w :
  Q (Ok (f (w_fs w))) w -> wp (inspect f) Q w.
Proof. exact id. Qed.

Lemma wp_lift_result (f : node -> FS.result A) (Q : res A -> world -> Prop) w :
  (forall a, f (w_fs w) = FS.Done a -> Q (Ok a) w) ->
  (forall e, f (w_fs w) = FS.Fail e -> Q (Raise e) w) ->
  wp (lift_result f) Q w.
Proof. unfold wp, lift_result. destruct (f (w_fs w)); eauto. Qed.

Lemma wp_try (body : M A) h (Q : res A -> world -> Prop) w :
  wp body (fun r w1 => match r with
                       | Raise e => wp (h e) Q (log_event (EvCaught e) w1)
                       | _ => Q r w1
                       end) w ->
  wp (try_except body h) Q w.
Proof. unfold wp, try_except. destruct (body w) as [[a|v|e] w1]; exact id. Qed.

End WP.

Lemma wp_effect f (Q : res unit -> world -> Prop) w :
  (forall t', f (w_fs w) = FS.Done t' -> Q (Ok tt) (set_fs t' w)) ->
  (forall e, f (w_fs w) = FS.Fail e -> Q (Raise e) w) ->
  wp (effect f) Q w.
Proof. unfold wp, effect. destruct (f (w_fs w)); eauto. Qed.

Lemma wp_meta_set k v (Q : res unit -> world -> Prop) w :
  Q (Ok tt) (set_meta (<[k := v]> (w_meta w)) w) -> wp (meta_set k v) Q w.
Proof. exact id. Qed.

Lemma wp_meta_bind m (Q : res unit -> world -> Prop) w :
  Q (Ok tt) (set_meta m w) -> wp (meta_bind m) Q w.
Proof. exact id. Qed.

Lemma wp_meta_obj (Q : res dict -> world -> Prop) w :
  Q (Ok (w_meta w)) w -> wp meta_obj Q w.
Proof. exact id. Qed.

Lemma wp_log_write p m (Q : res unit -> world -> Prop) w :
  Q (Ok tt) (log_event (EvWrite p m) w) -> wp (Lib.log_write p m) Q w.
Proof. exact id. Qed.

Lemma wp_subprocess os_run cmd (Q : res CompletedProcess -> world -> Prop) w :
  (forall p t', os_run cmd (w_fs w) = Exited p t' ->
     Q (Ok p) (log_event (EvRun cmd (Exited p t')) (set_fs t' w))) ->
  (forall e, os_run cmd (w_fs w) = LaunchError e ->
     Q (Raise e) (log_event (EvRun cmd (LaunchError e)) w)) ->
  wp (subprocess_run os_run cmd) Q w.
Proof. unfold wp, subprocess_run. destruct (os_run cmd (w_fs w)); eauto. Qed.

Lemma wp_call body (Q : res dict -> world -> Prop) w :
  wp body (fun r w1 => match r with
                       | Ok _ => Q (Ok ∅) w1
                       | Return v => Q (Ok v) w1
                       | Raise e => Q (Raise e) w1
                       end) w ->
  wp (call body) Q w.
Proof. unfold wp, call. destruct (body w) as [[a|v|e] w1]; exact id. Qed.

Lemma wp_uuid4_hex (Q : res string -> world -> Prop) w :
  Q (Ok (Str.hex 32 (Lib.uuid4_int (w_entropy w (w_drawn w))) ""))
    (set_drawn (S (w_drawn w)) w) ->
  wp Lib.uuid4_hex Q w.
Proof. exact id. Qed.

(** The simplifications between two steps: projections of an updated
    world, and the tests on booleans. *)
Ltac wp_norm :=
  cbv beta iota;
  cbn [fst snd w_fs w_meta w_trace w_entropy w_drawn w_broker_up w_queue
       set_fs set_meta log_event set_drawn set_queue negb].

(** One step of symbolic execution. *)
Ltac wp_step :=
  lazymatch goal with
  | |- wp (bind _ _) _ _ => apply wp_bind
  | |- wp (ret _) _ _ => apply wp_ret
  | |- wp (raise _) _ _ => apply wp_raise
  | |- wp (return_ _) _ _ => apply wp_return
  | |- wp (inspect _) _ _ => apply wp_inspect
  | |- wp (effect _) _ _ => apply wp_effect; wp_norm; [intros ? ? | intros ? ?]
  | |- wp (lift_result _) _ _ => apply wp_lift_result; wp_norm; [intros ? ? | intros ? ?]
  | |- wp (meta_set _ _) _ _ => apply wp_meta_set
  | |- wp (meta_bind _) _ _ => apply wp_meta_bind
  | |- wp meta_obj _ _ => apply wp_meta_obj
  | |- wp (Lib.log_write _ _) _ _ => apply wp_log_write
  | |- wp (subprocess_run _ _) _ _ => apply wp_subprocess; wp_norm; [intros ? ? ? | intros ? ?]
  | |- wp (try_except _ _) _ _ => apply wp_try
  | |- wp (call _) _ _ => apply wp_call
  | |- wp Lib.uuid4_hex _ _ => apply wp_uuid4_hex
  | |- wp (if ?b then _ else _) _ _ => destruct b eqn:?
  | |- wp (match ?x with _ => _ end) _ _ => destruct x eqn:?
  | |- wp (Lib.exists_ _) _ _ => unfold Lib.exists_
  | |- wp (Lib.mkdir _) _ _ => unfold Lib.mkdir
  | |- wp (Lib.write _ _) _ _ => unfold Lib.write
  | |- wp (Lib.copyfile _ _) _ _ => unfold Lib.copyfile
  | |- wp (Lib.read_text _) _ _ => unfold Lib.read_text
  | |- wp (Lib.json_loads _) _ _ => unfold Lib.json_loads
  | |- wp (_best_ply_path _) _ _ => unfold _best_ply_path
  | |- wp (_best_splat_path _) _ _ => unfold _best_splat_path
  | |- wp (and_exists _) _ _ => unfold and_exists
  | |- wp (recon_try _ _ _ _ _) _ _ => unfold recon_try
  | |- wp (recon_except _ _) _ _ => unfold recon_except
  end; wp_norm.

(** *** The metadata store, seen from outside the file system *)

(** [_read_meta] leaves the world alone and yields the initial document or
    raises. *)
Lemma wp_read_meta p (Q : res dict -> world -> Prop) w :
  Q (Ok (initial_meta (w_fs w) p)) w ->
  (forall e, Q (Raise e) w) ->
  wp (_read_meta p) Q w.
Proof.
  intros HQ HE. revert HQ.
  unfold wp, _read_meta, initial_meta, Lib.exists_, Lib.read_text, Lib.json_loads,
    bind, inspect, lift_result, ret, raise, FS.path_exists, FS.read_file.
  cbn [fst snd w_fs]. destruct (FS.stat (w_fs w) p) as [[[b|m]|es]|] eqn:E; cbn; rewrite ?E; cbn; auto.
Qed.

(** [_write_meta] either writes the document and notes it, or raises
    without noting anything. *)
Lemma wp_write_meta p m (Q : res unit -> world -> Prop) w :
  (forall t', Q (Ok tt) (log_event (EvWrite p m) (set_fs t' w))) ->
  (forall e, Q (Raise e) w) ->
  (forall e t', Q (Raise e) (set_fs t' w)) ->
  wp (_write_meta p m) Q w.
Proof.
  intros HQ HE1 HE2. unfold _write_meta.
  repeat wp_step; first [ apply HQ | apply HE1 | apply HE2 ].
Qed.

(** *** Facts about recorded documents *)

Lemma is_assigned_elem k : is_assigned k = true -> k ∈ assigned_keys.
Proof.
  unfold is_assigned. rewrite existsb_exists. intros (x & Hx & Heq).
  apply String.eqb_eq in Heq. subst. by apply list_elem_of_In.
Qed.

Lemma same_elsewhere_refl m : same_elsewhere m m.
Proof. by intros k _. Qed.

Lemma same_elsewhere_insert m0 m k v :
  is_assigned k = true -> same_elsewhere m0 m -> same_elsewhere m0 (<[k := v]> m).
Proof.
  intros Hk H k' Hk'. rewrite lookup_insert_ne; [by apply H|].
  intros ->. by apply Hk', is_assigned_elem.
Qed.

Lemma status_insert k v (m : dict) :
  <[k := v]> m !! "status" = if String.eqb k "status" then Some v else m !! "status".
Proof.
  destruct (String.eqb_spec k "status") as [->|Hne].
  - by rewrite lookup_insert_eq.
  - by rewrite lookup_insert_ne.
Qed.

Lemma lookup_insert_str (k k' : string) v (m : dict) :
  <[k := v]> m !! k' = if String.eqb k k' then Some v else m !! k'.
Proof.
  destruct (String.eqb_spec k k') as [->|Hne].
  - by rewrite lookup_insert_eq.
  - by rewrite lookup_insert_ne.
Qed.

(** Evaluate lookups in a document built by assignments. *)
Ltac dict_simpl :=
  repeat (rewrite lookup_insert_str;
          cbn [String.eqb Ascii.eqb Bool.eqb]).

Ltac same_else :=
  repeat (apply same_elsewhere_insert; [reflexivity|]);
  first [ apply same_elsewhere_refl | assumption
        | match goal with H : meta_step _ _ ?m |- same_elsewhere _ ?m => apply H end ].


(** ** The file system *)

Module FSFacts.
Import FS.

Lemma dirb_kind n n' : kind n = kind n' -> dirb n = dirb n'.
Proof. destruct n as [[]|], n' as [[]|]; simpl; congruence. Qed.

Lemma lookup_node_app t p r :
  lookup_node t (p ++ r) = lookup_node t p ≫= fun n => lookup_node n r.
Proof.
  revert t. induction p as [|c p IH]; intros t; [done|].
  simpl. destruct t as [|es]; [done|]. destruct (es !! c); [apply IH|done].
Qed.

Lemma lookup_node_file c r : r <> [] -> lookup_node (File c) r = None.
Proof. by destruct r. Qed.

Lemma lookup_node_empty r : r <> [] -> lookup_node (Dir ∅) r = None.
Proof. destruct r; [done|]. intros _. simpl. by rewrite lookup_empty. Qed.

Lemma lookup_node_snoc_dir t q c es :
  lookup_node t q = Some (Dir es) -> lookup_node t (q ++ [c]) = es !! c.
Proof.
  intros H. rewrite lookup_node_app, H. simpl. by destruct (es !! c).
Qed.

Lemma lookup_node_snoc_nodir t q c :
  dirb (lookup_node t q) = false -> lookup_node t (q ++ [c]) = None.
Proof.
  intros H. rewrite lookup_node_app.
  destruct (lookup_node t q) as [[|es]|]; simpl in *; done.
Qed.

Lemma put_node_lookup t q x t' :
  put_node t q x = Some t' -> lookup_node t' q = Some x.
Proof.
  revert t t'. induction q as [|c q IH]; intros t t' H; simpl in *.
  { congruence. }
  destruct t as [|es]; [done|]. destruct q as [|c' q].
  - inversion H; subst. simpl. by rewrite lookup_insert_eq.
  - destruct (es !! c) as [n|] eqn:E; [|done].
    destruct (put_node n (c' :: q) x) as [n'|] eqn:E'; [|done].
    inversion H; subst. cbn [lookup_node]. rewrite lookup_insert_eq. by eapply IH.
Qed.

Lemma put_node_ok t q c es x :
  lookup_node t q = Some (Dir es) -> is_Some (put_node t (q ++ [c]) x).
Proof.
  revert t. induction q as [|c' q IH]; intros t H; simpl in *.
  { inversion H; subst. eauto. }
  destruct t as [|es']; [done|].
  destruct (es' !! c') as [n|] eqn:E; [|done].
  destruct (IH _ H) as [n' Hn']. rewrite Hn'.
  destruct (q ++ [c]) eqn:Eq; [by destruct q|]. eauto.
Qed.

Lemma lookup_node_leafy x r : leafy x -> r <> [] -> lookup_node x r = None.
Proof.
  destruct x as [c|es]; simpl; intros H Hr.
  - by apply lookup_node_file.
  - subst. by apply lookup_node_empty.
Qed.

(** Replacing a leaf, or creating one, changes what is observed at that
    path only. *)
Lemma put_node_kind t q x t' r :
  put_node t q x = Some t' ->
  dirb (lookup_node t q) = false -> leafy x -> r <> q ->
  kind (lookup_node t' r) = kind (lookup_node t r).
Proof.
  revert t t' r. induction q as [|c q IH]; intros t t' r H Hold Hx Hr; simpl in *.
  - inversion H; subst. destruct t as [c0|es]; [|done].
    rewrite lookup_node_leafy, lookup_node_file; done.
  - destruct t as [|es]; [done|]. destruct q as [|c2 q].
    + inversion H; subst. destruct r as [|c' r]; [done|].
      simpl. destruct (decide (c' = c)) as [->|Hne].
      * rewrite lookup_insert_eq. assert (r <> []) by congruence.
        rewrite lookup_node_leafy by done.
        destruct (es !! c) as [[c0|es0]|]; [|done..].
        by rewrite lookup_node_file.
      * by rewrite lookup_insert_ne.
    + destruct (es !! c) as [n|] eqn:E; [|done].
      destruct (put_node n (c2 :: q) x) as [n'|] eqn:E'; [|done].
      inversion H; subst. destruct r as [|c' r]; [done|]. cbn [lookup_node].
      destruct (decide (c' = c)) as [->|Hne].
      * rewrite lookup_insert_eq, E. apply (IH n); [done|done|done|congruence].
      * by rewrite lookup_insert_ne.
Qed.

(** Path resolution looks at directories only. *)
Lemma locate_from_ext t t' a p :
  (forall r, dirb (lookup_node t' r) = dirb (lookup_node t r)) ->
  locate_from t' a p = locate_from t a p.
Proof.
  intros H. revert a. induction p as [|c p IH]; intros a; [done|].
  simpl. pose proof (H a) as Ha.
  destruct (lookup_node t' a) as [[|]|], (lookup_node t a) as [[|]|];
    simpl in Ha; first [ done | apply IH ].
Qed.

Lemma locate_from_app t a p r :
  locate_from t a (p ++ r) = locate_from t a p ≫= fun q => locate_from t q r.
Proof.
  revert a. induction p as [|c p IH]; intros a; [done|].
  simpl. destruct (lookup_node t a) as [[|]|]; [done| |done]. apply IH.
Qed.

Lemma locate_app t p r :
  locate t (p ++ r) = locate t p ≫= fun q => locate_from t q r.
Proof. apply locate_from_app. Qed.

Lemma locate_snoc t p c :
  locate t (p ++ [c]) =
  locate t p ≫= fun q =>
    if dirb (lookup_node t q) then Some (resolve_step q c) else None.
Proof.
  rewrite locate_app. destruct (locate t p) as [q|]; [|done]. simpl.
  by destruct (lookup_node t q) as [[|]|].
Qed.

Lemma resolve_step_plain q c : c <> ".." -> resolve_step q c = q ++ [c].
Proof.
  intros H. unfold resolve_step. destruct (String.eqb_spec c ".."); done.
Qed.

Lemma stat_nil t : stat t [] = Some t.
Proof. done. Qed.

(** The entry [c] of the directory [p] denotes. *)
Lemma stat_snoc t p c :
  c <> ".." ->
  stat t (p ++ [c]) =
  match stat t p with
  | Some (Dir es) => es !! c
  | _ => None
  end.
Proof.
  intros Hc. unfold stat. rewrite locate_snoc.
  destruct (locate t p) as [q|]; [|done]. simpl.
  destruct (lookup_node t q) as [[|es]|] eqn:E; simpl; [done| |done].
  rewrite resolve_step_plain by done. by apply lookup_node_snoc_dir.
Qed.

Lemma stat_app_none t p r : stat t p = None -> r <> [] -> stat t (p ++ r) = None.
Proof.
  unfold stat. intros H Hr. rewrite locate_app.
  destruct (locate t p) as [q|]; [|done]. simpl.
  destruct r as [|c r]; [done|]. simpl. by rewrite H.
Qed.

Lemma path_exists_app t p r :
  path_exists t p = false -> r <> [] -> path_exists t (p ++ r) = false.
Proof.
  unfold path_exists. intros H Hr.
  destruct (stat t p) eqn:E; [done|]. by rewrite stat_app_none.
Qed.

Lemma is_dir_locate t p :
  is_dir t p = true <->
  exists q es, locate t p = Some q /\ lookup_node t q = Some (Dir es).
Proof.
  unfold is_dir, stat. split.
  - destruct (locate t p) as [q|]; [|done].
    destruct (lookup_node t q) as [[|es]|] eqn:E; [done| |done]. eauto.
  - intros (q & es & -> & ->). done.
Qed.

Lemma path_exists_parent t p c :
  path_exists t (p ++ [c]) = true -> is_dir t p = true.
Proof.
  unfold path_exists, is_dir, stat. rewrite locate_snoc.
  destruct (locate t p) as [q|]; [|done]. simpl.
  by destruct (lookup_node t q) as [[|]|].
Qed.


(** *** What the observers depend on *)

Lemma path_exists_kind t t' r r' :
  kind (stat t' r') = kind (stat t r) -> path_exists t' r' = path_exists t r.
Proof.
  unfold path_exists. destruct (stat t' r') as [[]|], (stat t r) as [[]|]; done.
Qed.

Lemma is_dir_kind t t' r r' :
  kind (stat t' r') = kind (stat t r) -> is_dir t' r' = is_dir t r.
Proof.
  unfold is_dir. destruct (stat t' r') as [[]|], (stat t r) as [[]|]; done.
Qed.

Lemma is_file_kind t t' r r' :
  kind (stat t' r') = kind (stat t r) -> is_file t' r' = is_file t r.
Proof.
  unfold is_file. destruct (stat t' r') as [[]|], (stat t r) as [[]|]; done.
Qed.

Lemma read_file_kind t t' r :
  kind (stat t' r) = kind (stat t r) -> read_file t' r = read_file t r.
Proof.
  unfold read_file.
  destruct (stat t' r) as [[]|], (stat t r) as [[]|]; simpl; congruence.
Qed.

Lemma read_file_stat t r x : read_file t r = Done x <-> kind (stat t r) = Some (Some x).
Proof.
  unfold read_file. destruct (stat t r) as [[]|]; simpl; split; congruence.
Qed.

Lemma is_file_read t r : is_file t r = true <-> exists x, read_file t r = Done x.
Proof.
  unfold is_file, read_file. destruct (stat t r) as [[]|]; split; try done; eauto.
  all: by intros [? ?].
Qed.

Lemma is_dir_exists t r : is_dir t r = true -> path_exists t r = true.
Proof. unfold is_dir, path_exists. by destruct (stat t r) as [[]|]. Qed.

Lemma is_dir_stat t r : is_dir t r = dirb (stat t r).
Proof. done. Qed.

(** *** Writing a file *)

Lemma write_file_inv t p x t' :
  write_file t p x = Done t' ->
  exists q, locate t p = Some q /\ dirb (lookup_node t q) = false
            /\ put_node t q (File x) = Some t'.
Proof.
  unfold write_file. destruct (locate t p) as [q|]; [|done].
  destruct (lookup_node t q) as [[|]|] eqn:E; [|done|];
    destruct (put_node t q (File x)) eqn:E'; try done;
    intros [= <-]; exists q; by rewrite E.
Qed.

Lemma write_file_lookup_kind t p x t' q r :
  write_file t p x = Done t' -> locate t p = Some q ->
  kind (lookup_node t' r) =
  if decide (r = q) then Some (Some x) else kind (lookup_node t r).
Proof.
  intros H Hq. apply write_file_inv in H as (q' & Hq' & Hold & Hput).
  assert (q' = q) as -> by congruence.
  destruct (decide (r = q)) as [->|Hne].
  - by rewrite (put_node_lookup _ _ _ _ Hput).
  - by apply (put_node_kind _ _ _ _ _ Hput).
Qed.

Lemma write_file_dirb t p x t' r :
  write_file t p x = Done t' ->
  dirb (lookup_node t' r) = dirb (lookup_node t r).
Proof.
  intros H. destruct (write_file_inv _ _ _ _ H) as (q & Hq & Hold & Hput).
  pose proof (write_file_lookup_kind _ _ _ _ _ r H Hq) as Hk.
  destruct (decide (r = q)) as [->|Hne].
  - rewrite Hold. by destruct (lookup_node t' q) as [[]|].
  - by apply dirb_kind.
Qed.

Lemma write_file_locate t p x t' a r :
  write_file t p x = Done t' -> locate_from t' a r = locate_from t a r.
Proof. intros H. apply locate_from_ext. intros. by eapply write_file_dirb. Qed.

(** After a write, the written path holds the new content and every other
    path is observed as before. *)
Lemma write_file_stat t p x t' r :
  write_file t p x = Done t' ->
  kind (stat t' r) =
  if decide (locate t r = locate t p) then Some (Some x) else kind (stat t r).
Proof.
  intros H. destruct (write_file_inv _ _ _ _ H) as (q & Hq & Hold & Hput).
  unfold stat. rewrite (write_file_locate _ _ _ _ _ _ H : locate t' r = locate t r).
  rewrite Hq. destruct (locate t r) as [q'|] eqn:E.
  - rewrite (write_file_lookup_kind _ _ _ _ _ q' H Hq).
    destruct (decide (q' = q)) as [->|Hne]; [by rewrite decide_True|].
    rewrite decide_False; [done|congruence].
  - by rewrite decide_False.
Qed.

Lemma write_file_is_dir t p x t' r :
  write_file t p x = Done t' -> is_dir t' r = is_dir t r.
Proof.
  intros H. unfold is_dir, stat.
  rewrite (write_file_locate _ _ _ _ _ _ H : locate t' r = locate t r).
  destruct (locate t r) as [q|]; [|done].
  pose proof (write_file_dirb _ _ _ _ q H) as Hd.
  by destruct (lookup_node t' q) as [[]|], (lookup_node t q) as [[]|].
Qed.

Lemma write_file_read t p x t' :
  write_file t p x = Done t' -> read_file t' p = Done x.
Proof.
  intros H. apply read_file_stat. rewrite (write_file_stat _ _ _ _ _ H).
  by rewrite decide_True.
Qed.

(** Two paths with different last names do not denote the same entry. *)
Lemma locate_last_ne t p c p' c' :
  c <> ".." -> c' <> ".." -> c <> c' ->
  locate t (p ++ [c]) = locate t (p' ++ [c']) -> locate t (p ++ [c]) = None.
Proof.
  intros Hc Hc' Hne. rewrite !locate_snoc.
  destruct (locate t p) as [q|]; [|done]. simpl.
  destruct (dirb (lookup_node t q)); [|done].
  destruct (locate t p') as [q'|]; [|done]. simpl.
  destruct (dirb (lookup_node t q')); [|done].
  rewrite !resolve_step_plain by done. intros [= H]. by apply app_inj_tail in H as [_ ?].
Qed.

Lemma write_file_frame_name t p c x t' p' c' :
  write_file t (p ++ [c]) x = Done t' ->
  c <> ".." -> c' <> ".." -> c' <> c ->
  kind (stat t' (p' ++ [c'])) = kind (stat t (p' ++ [c'])).
Proof.
  intros H Hc Hc' Hne. rewrite (write_file_stat _ _ _ _ _ H).
  destruct (decide _) as [Heq|]; [|done].
  pose proof (locate_last_ne _ _ _ _ _ Hc' Hc Hne Heq) as Hn.
  destruct (write_file_inv _ _ _ _ H) as (q & Hq & _). congruence.
Qed.

Lemma write_file_ok t p c x :
  c <> ".." -> is_dir t p = true -> is_dir t (p ++ [c]) = false ->
  exists t', write_file t (p ++ [c]) x = Done t'.
Proof.
  intros Hc Hp Hpc. apply is_dir_locate in Hp as (q & es & Hq & Hes).
  unfold write_file. unfold is_dir, stat in Hpc. revert Hpc.
  rewrite locate_snoc, Hq. simpl. rewrite Hes. simpl.
  rewrite resolve_step_plain by done. intros Hpc.
  destruct (put_node_ok t q c es (File x) Hes) as [t' Ht']. rewrite Ht'.
  destruct (lookup_node t (q ++ [c])) as [[|]|]; eauto. done.
Qed.

(** *** Creating directories *)

Lemma mkdir_from_existing t a p q :
  locate_from t a p = Some q -> dirb (lookup_node t q) = true ->
  mkdir_from t a p = Done t.
Proof.
  revert a. induction p as [|c p IH]; intros a Hl Hq; [done|].
  simpl in *. destruct (lookup_node t a) as [[|es]|] eqn:Ea; try done.
  unfold resolve_step in Hl. destruct (String.eqb c ".."); [by eapply IH|].
  assert (dirb (lookup_node t (a ++ [c])) = true) as Hd.
  { destruct p as [|c' p]; simpl in Hl.
    - by inversion Hl; subst.
    - by destruct (lookup_node t (a ++ [c])) as [[|]|]. }
  destruct (lookup_node t (a ++ [c])) as [[|]|]; try done. by eapply IH.
Qed.

Lemma mkdir_p_noop t p : is_dir t p = true -> mkdir_p t p = Done t.
Proof.
  intros H. apply is_dir_locate in H as (q & es & Hq & Hes).
  eapply mkdir_from_existing; [done|]. by rewrite Hes.
Qed.

Lemma mkdir_p_fail t p e : mkdir_p t p = Fail e -> is_dir t p = false.
Proof.
  intros H. destruct (is_dir t p) eqn:E; [|done].
  rewrite (mkdir_p_noop _ _ E) in H. done.
Qed.

End FSFacts.

(** *** Creating a directory that does not exist yet *)

Module MkdirFacts.
Import FS FSFacts.

Lemma locate_from_fold t a p q :
  locate_from t a p = Some q -> q = fold_left resolve_step p a.
Proof.
  revert a. induction p as [|c p IH]; intros a; simpl; [congruence|].
  destruct (lookup_node t a) as [[|]|]; try done. apply IH.
Qed.

Lemma locate_from_mono t t' a p q :
  (forall r, dirb (lookup_node t r) = true -> dirb (lookup_node t' r) = true) ->
  locate_from t a p = Some q -> locate_from t' a p = Some q.
Proof.
  intros H. revert a. induction p as [|c p IH]; intros a; simpl; [done|].
  pose proof (H a) as Ha.
  destruct (lookup_node t a) as [[|es]|]; try done.
  destruct (lookup_node t' a) as [[|es']|]; simpl in Ha; try (by discriminate Ha).
  apply IH.
Qed.

Lemma mkdir_from_app t a p r t' :
  mkdir_from t a p = Done t' ->
  mkdir_from t a (p ++ r) = mkdir_from t' (fold_left resolve_step p a) r.
Proof.
  revert t a. induction p as [|c p IH]; intros t a; simpl.
  { by intros [= ->]. }
  unfold resolve_step at 2.
  destruct (String.eqb c ".."); [apply IH|].
  destruct (lookup_node t (a ++ [c])) as [[|es]|]; [done|apply IH|].
  destruct (put_node t (a ++ [c]) (Dir ∅)); [apply IH|done].
Qed.

Lemma put_node_parent t q c x es t' :
  lookup_node t q = Some (Dir es) -> put_node t (q ++ [c]) x = Some t' ->
  lookup_node t' q = Some (Dir (<[c := x]> es)).
Proof.
  revert t t'. induction q as [|c' q IH]; intros t t' Hq Hp; simpl in *.
  { inversion Hq; subst. by inversion Hp. }
  destruct t as [|es']; [done|].
  destruct (es' !! c') as [n|] eqn:E; [|done].
  destruct (q ++ [c]) eqn:Eq; [by destruct q|]. rewrite <- Eq in Hp.
  destruct (put_node n (q ++ [c]) x) as [n'|] eqn:E'; [|done].
  inversion Hp; subst. cbn [lookup_node]. rewrite lookup_insert_eq.
  eapply IH; [done|by rewrite <- Eq].
Qed.

(** Creating the entry [c] of an existing directory [p]. *)
Lemma mkdir_child t p c es :
  stat t p = Some (Dir es) -> c <> ".." -> es !! c = None ->
  exists t', mkdir_p t (p ++ [c]) = Done t'
             /\ stat t' p = Some (Dir (<[c := Dir ∅]> es))
             /\ (forall r, is_dir t r = true -> is_dir t' r = true).
Proof.
  intros Hp Hc Hn. unfold stat in Hp.
  destruct (locate t p) as [q|] eqn:Hq; [|done].
  pose proof (locate_from_fold _ _ _ _ Hq) as Hfold.
  assert (mkdir_p t p = Done t) as Hnoop.
  { apply mkdir_p_noop. unfold is_dir, stat. by rewrite Hq, Hp. }
  unfold mkdir_p. rewrite (mkdir_from_app _ _ _ [c] _ Hnoop), <- Hfold.
  simpl. destruct (String.eqb_spec c ".."); [done|].
  rewrite (lookup_node_snoc_dir _ _ _ _ Hp), Hn.
  destruct (put_node_ok t q c es (Dir ∅) Hp) as [t' Ht']. rewrite Ht'.
  exists t'. split; [done|].
  assert (forall r, dirb (lookup_node t r) = true -> dirb (lookup_node t' r) = true) as Hmono.
  { intros r Hr. destruct (decide (r = q ++ [c])) as [->|Hne].
    - by rewrite (put_node_lookup _ _ _ _ Ht').
    - rewrite (dirb_kind _ (lookup_node t r)); [done|].
      apply (put_node_kind _ _ _ _ _ Ht'); [|done|done].
      by rewrite (lookup_node_snoc_dir _ _ _ _ Hp), Hn. }
  split.
  - unfold stat. rewrite (locate_from_mono _ _ _ _ _ Hmono Hq : locate t' p = Some q).
    by eapply put_node_parent.
  - intros r Hr. apply is_dir_locate in Hr as (qr & esr & Hqr & Hesr).
    unfold is_dir, stat.
    rewrite (locate_from_mono _ _ _ _ _ Hmono Hqr : locate t' r = Some qr).
    specialize (Hmono qr). rewrite Hesr in Hmono.
    destruct (lookup_node t' qr) as [[|]|]; simpl in Hmono; auto.
Qed.

Lemma mkdir_p_snoc t p c t1 :
  mkdir_p t p = Done t1 -> is_dir t1 p = true ->
  mkdir_p t (p ++ [c]) = mkdir_p t1 (p ++ [c]).
Proof.
  intros H H1. unfold mkdir_p.
  rewrite (mkdir_from_app _ _ _ [c] _ H).
  by rewrite (mkdir_from_app _ _ _ [c] _ (mkdir_p_noop _ _ H1)).
Qed.

Lemma is_dir_of_stat t p es : stat t p = Some (Dir es) -> is_dir t p = true.
Proof. unfold is_dir. by intros ->. Qed.

(** Creating [p/c1/c2] when [p] exists and [p/c1] does not. *)
Lemma mkdir_grandchild t p c1 c2 es :
  stat t p = Some (Dir es) -> c1 <> ".." -> c2 <> ".." -> es !! c1 = None ->
  exists t', mkdir_p t ((p ++ [c1]) ++ [c2]) = Done t'
             /\ stat t' (p ++ [c1]) = Some (Dir {[ c2 := Dir ∅ ]})
             /\ (forall r, is_dir t r = true -> is_dir t' r = true).
Proof.
  intros Hp H1 H2 Hn.
  destruct (mkdir_child t p c1 es Hp H1 Hn) as (t1 & Hm1 & Hs1 & Hd1).
  assert (stat t1 (p ++ [c1]) = Some (Dir ∅)) as Hc1.
  { rewrite stat_snoc, Hs1 by done. by rewrite lookup_insert_eq. }
  destruct (mkdir_child t1 (p ++ [c1]) c2 ∅ Hc1 H2 (lookup_empty _))
    as (t2 & Hm2 & Hs2 & Hd2).
  exists t2. rewrite (mkdir_p_snoc _ _ _ _ Hm1 (is_dir_of_stat _ _ _ Hc1)).
  split; [done|]. split; [done|]. auto.
Qed.

(** [p/..] exists when [p] is a directory. *)
Lemma lookup_node_prefix t q c n :
  lookup_node t (q ++ [c]) = Some n -> dirb (lookup_node t q) = true.
Proof.
  rewrite lookup_node_app. destruct (lookup_node t q) as [[|es]|]; simpl; done.
Qed.

Lemma lookup_node_removelast t q :
  is_Some (lookup_node t q) -> is_Some (lookup_node t (removelast q)).
Proof.
  destruct q as [|c q] using rev_ind; [done|].
  rewrite removelast_last. intros [n Hn].
  apply lookup_node_prefix in Hn. by destruct (lookup_node t q).
Qed.

Lemma path_exists_dotdot t p :
  is_dir t p = true -> path_exists t (p ++ [".."]) = true.
Proof.
  intros H. apply is_dir_locate in H as (q & es & Hq & Hes).
  unfold path_exists, stat. rewrite locate_snoc, Hq. simpl. rewrite Hes. simpl.
  unfold resolve_step. simpl.
  destruct (lookup_node_removelast t q) as [n Hn]; [by rewrite Hes|]. by rewrite Hn.
Qed.

End MkdirFacts.

(** ** Strings and paths *)

Module PathFacts.

Lemma contains_cons n c s :
  Str.contains n (String c s) = String.prefix n (String c s) || Str.contains n s.
Proof. done. Qed.

Lemma no_slash_cons c s :
  Str.contains "/" (String c s) = false ->
  Ascii.eqb c "/" = false /\ Str.contains "/" s = false.
Proof.
  rewrite contains_cons. intros H. apply orb_false_iff in H as [H1 H2].
  split; [|done]. simpl in H1. destruct (ascii_dec "/" c) as [<-|Hne].
  - by destruct s.
  - apply Ascii.eqb_neq. congruence.
Qed.

Lemma no_slash_split s :
  Str.contains "/" s = false -> Str.split_on "/" s = [s].
Proof.
  induction s as [|c s IH]; [done|]. intros H.
  apply no_slash_cons in H as [Hc Hs]. simpl. rewrite Hc, (IH Hs). done.
Qed.

Lemma no_slash_prefix s : Str.contains "/" s = false -> String.prefix "/" s = false.
Proof.
  destruct s as [|c s]; [done|]. rewrite contains_cons. intros H.
  by apply orb_false_iff in H as [H _].
Qed.

Lemma plain_name_spec s :
  plain_name s = true ->
  s <> "" /\ s <> "." /\ s <> ".." /\ Str.contains "/" s = false.
Proof.
  unfold plain_name. rewrite !andb_true_iff, !negb_true_iff.
  intros [[[H1 H2] H3] H4].
  apply String.eqb_neq in H1, H2, H3. done.
Qed.

(** Joining a plain name appends one component. *)
Lemma joinpath_plain p s : plain_name s = true -> p // s = p ++ [s].
Proof.
  intros H. apply plain_name_spec in H as (H1 & H2 & _ & H4).
  unfold joinpath, parse_parts. rewrite (no_slash_prefix _ H4), (no_slash_split _ H4).
  simpl. apply String.eqb_neq in H1, H2. by rewrite H1, H2.
Qed.

Lemma name_snoc p c : name (p ++ [c]) = c.
Proof. apply last_last. Qed.

Lemma parent_snoc p c : parent (p ++ [c]) = p.
Proof. apply removelast_last. Qed.

Lemma resolve_snoc p c : c <> ".." -> resolve (p ++ [c]) = resolve p ++ [c].
Proof.
  intros H. unfold resolve. rewrite fold_left_app. simpl.
  unfold resolve_step at 1. by destruct (String.eqb_spec c "..").
Qed.

Lemma resolve_app_plain p l :
  Forall (fun c => c <> "..") l -> resolve (p ++ l) = resolve p ++ l.
Proof.
  induction l as [|c l IH] using rev_ind; intros H.
  - by rewrite !app_nil_r.
  - apply Forall_app in H as [Hl Hc]. inversion Hc as [|? ? Hc' _]; subst.
    rewrite app_assoc, resolve_snoc by done. rewrite IH by done.
    by rewrite <- app_assoc.
Qed.

End PathFacts.

(** ** Generated names *)

Module NameFacts.
Import PathFacts.

Lemma length_append a b : String.length (a +:+ b) = String.length a + String.length b.
Proof.
  induction a as [|c a IH]; [done|].
  change (S (String.length (a +:+ b)) = S (String.length a + String.length b)).
  by rewrite IH.
Qed.

Lemma append_empty_r a : a +:+ "" = a.
Proof.
  induction a as [|c a IH]; [done|].
  change (String c (a +:+ "") = String c a). by rewrite IH.
Qed.

Lemma no_slash_String c s :
  Ascii.eqb c "/" = false -> Str.contains "/" s = false ->
  Str.contains "/" (String c s) = false.
Proof.
  intros Hc Hs. rewrite contains_cons, Hs, orb_false_r. cbn [String.prefix].
  destruct (ascii_dec "/" c) as [<-|]; [|done]. by vm_compute in Hc.
Qed.

Lemma no_slash_app a b :
  Str.contains "/" a = false -> Str.contains "/" b = false ->
  Str.contains "/" (a +:+ b) = false.
Proof.
  induction a as [|c a IH]; intros Ha Hb; [done|].
  apply no_slash_cons in Ha as [Hc Ha].
  change (String c a +:+ b) with (String c (a +:+ b)). apply no_slash_String; auto.
Qed.

Lemma no_slash_substring i k s :
  Str.contains "/" s = false -> Str.contains "/" (String.substring i k s) = false.
Proof.
  revert i k. induction s as [|c s IH]; intros i k H.
  { by destruct i, k. }
  apply no_slash_cons in H as [Hc Hs].
  destruct i as [|i]; simpl.
  - destruct k as [|k]; [done|]. apply no_slash_String; auto.
  - auto.
Qed.

Lemma length_substring k s :
  k <= String.length s -> String.length (String.substring 0 k s) = k.
Proof.
  revert k. induction s as [|c s IH]; intros [|k] H; simpl in *; try done; try lia.
  rewrite IH; lia.
Qed.

Lemma substring_all s : String.substring 0 (String.length s) s = s.
Proof. induction s as [|c s IH]; simpl; [done|]. by rewrite IH. Qed.

Lemma substring_split i s :
  i <= String.length s ->
  String.substring 0 i s +:+ String.substring i (String.length s - i) s = s.
Proof.
  revert i. induction s as [|c s IH]; intros [|i] H; try done.
  - rewrite Nat.sub_0_r, substring_all. by destruct (String.length (String c s)).
  - simpl in H. change (String c (String.substring 0 i s +:+
                          String.substring i (String.length s - i) s) = String c s).
    f_equal. apply IH. lia.
Qed.

Lemma hex_digit_no_slash d : Ascii.eqb (Str.hex_digit d) "/" = false.
Proof.
  unfold Str.hex_digit. generalize (N.to_nat d). intros k.
  do 17 (destruct k as [|k]; [reflexivity|]). reflexivity.
Qed.

Lemma hex_no_slash len n acc :
  Str.contains "/" acc = false -> Str.contains "/" (Str.hex len n acc) = false.
Proof.
  revert n acc. induction len as [|len IH]; intros n acc H; simpl; [done|].
  apply IH, no_slash_String; [apply hex_digit_no_slash|done].
Qed.

Lemma hex_length len n acc :
  String.length (Str.hex len n acc) = len + String.length acc.
Proof.
  revert n acc. induction len as [|len IH]; intros n acc; simpl; [done|].
  rewrite IH. simpl. lia.
Qed.

(** The first [k] characters of a uuid's hex form, for [0 < k <= 32]. *)
Lemma hex_prefix_length k n :
  k <= 32 -> String.length (String.substring 0 k (Str.hex 32 n "")) = k.
Proof. intros H. apply length_substring. rewrite hex_length. simpl. lia. Qed.

Lemma hex_prefix_no_slash k n :
  Str.contains "/" (String.substring 0 k (Str.hex 32 n "")) = false.
Proof. apply no_slash_substring, hex_no_slash. done. Qed.

Lemma long_name_plain s :
  3 <= String.length s -> Str.contains "/" s = false -> plain_name s = true.
Proof.
  intros Hl Hs. unfold plain_name. rewrite Hs.
  destruct (String.eqb_spec s ""), (String.eqb_spec s "."), (String.eqb_spec s "..");
    subst; simpl in Hl; try lia; done.
Qed.

Lemma job_id_plain n : plain_name (String.substring 0 12 (Str.hex 32 n "")) = true.
Proof.
  apply long_name_plain; [|apply hex_prefix_no_slash].
  rewrite hex_prefix_length; lia.
Qed.

Lemma next_job_id_plain w : plain_name (next_job_id w) = true.
Proof. apply job_id_plain. Qed.

(** [_safe_filename] leaves no [/] and keeps the length. *)
Lemma replace_char_length a b s :
  String.length (Str.replace_char a b s) = String.length s.
Proof. induction s as [|c s IH]; simpl; [done|]. by rewrite IH. Qed.

Lemma replace_slash_no_slash s : Str.contains "/" (Str.replace_char "/" "_" s) = false.
Proof.
  induction s as [|c s IH]; [done|]. simpl.
  apply no_slash_String; [|done]. destruct (Ascii.eqb_spec c "/"); [done|].
  by apply Ascii.eqb_neq.
Qed.

Lemma replace_keeps_no_slash s :
  Str.contains "/" s = false -> Str.contains "/" (Str.replace_char "\" "_" s) = false.
Proof.
  induction s as [|c s IH]; [done|]. intros H. apply no_slash_cons in H as [Hc Hs].
  simpl. apply no_slash_String; [|auto]. by destruct (Ascii.eqb c "\").
Qed.

Lemma safe_filename_no_slash s : Str.contains "/" (_safe_filename s) = false.
Proof. apply replace_keeps_no_slash, replace_slash_no_slash. Qed.

Lemma safe_filename_length s : String.length (_safe_filename s) = String.length s.
Proof. unfold _safe_filename. by rewrite !replace_char_length. Qed.

(** A sanitized non-empty name is a plain component, [.] or [..]. *)
Lemma safe_filename_cases s :
  s <> "" ->
  plain_name (_safe_filename s) = true \/ _safe_filename s = "." \/ _safe_filename s = "..".
Proof.
  intros Hs. pose proof (safe_filename_no_slash s) as Hn.
  pose proof (safe_filename_length s) as Hl.
  unfold plain_name. rewrite Hn.
  destruct (String.eqb_spec (_safe_filename s) "") as [E|_].
  { rewrite E in Hl. destruct s; [done|discriminate Hl]. }
  destruct (String.eqb_spec (_safe_filename s) "."); [auto|].
  destruct (String.eqb_spec (_safe_filename s) ".."); [auto|]. by left.
Qed.

(** [stem] and [suffix] split the name. *)
Lemma suffix_at_le n i : suffix_at n = Some i -> i <= String.length n.
Proof.
  unfold suffix_at. destruct (Str.rfind "." n) as [j|]; [|done].
  destruct (0 <? j)%nat eqn:E1; [|done]. simpl.
  destruct (j <? String.length n - 1)%nat eqn:E2; [|done].
  intros [= <-]. apply Nat.ltb_lt in E2. lia.
Qed.

Lemma stem_suffix p : stem p +:+ suffix p = name p.
Proof.
  unfold stem, suffix. destruct (suffix_at (name p)) as [i|] eqn:E.
  - apply substring_split. by eapply suffix_at_le.
  - apply append_empty_r.
Qed.

Lemma stem_no_slash p : Str.contains "/" (name p) = false -> Str.contains "/" (stem p) = false.
Proof.
  intros H. unfold stem. destruct (suffix_at (name p)); [|done].
  by apply no_slash_substring.
Qed.

Lemma suffix_no_slash p : Str.contains "/" (name p) = false -> Str.contains "/" (suffix p) = false.
Proof.
  intros H. unfold suffix. destruct (suffix_at (name p)); [|done].
  by apply no_slash_substring.
Qed.

Lemma renamed_length p n : String.length (renamed p n) = String.length (name p) + 7.
Proof.
  unfold renamed. rewrite <- (stem_suffix p), !length_append, hex_prefix_length by lia.
  simpl. lia.
Qed.

Lemma renamed_plain p n :
  Str.contains "/" (name p) = false -> plain_name (renamed p n) = true.
Proof.
  intros H. apply long_name_plain; [rewrite renamed_length; lia|].
  unfold renamed. repeat apply no_slash_app;
    auto using stem_no_slash, suffix_no_slash, hex_prefix_no_slash.
Qed.

Lemma renamed_ne p n : renamed p n <> name p.
Proof. intros E. apply (f_equal String.length) in E. rewrite renamed_length in E. lia. Qed.

End NameFacts.

(** *** What every run of the worker task does *)

Lemma wp_write_meta_at q c m (Q : res unit -> world -> Prop) w :
  c <> ".." ->
  (forall t', Q (Ok tt) (log_event (EvWrite (q ++ [c]) m) (set_fs t' w))) ->
  (forall e, FS.is_dir (w_fs w) q = false \/ FS.is_dir (w_fs w) (q ++ [c]) = true ->
     Q (Raise e) w) ->
  (forall e t', FS.is_dir t' q = false \/ FS.is_dir t' (q ++ [c]) = true ->
     Q (Raise e) (set_fs t' w)) ->
  wp (_write_meta (q ++ [c]) m) Q w.
Proof.
  intros Hc HQ HE1 HE2. unfold _write_meta. rewrite PathFacts.parent_snoc.
  repeat wp_step; try apply HQ.
  - apply HE2. destruct (FS.is_dir t' q) eqn:E; [right|by left].
    destruct (FS.is_dir t' (q ++ [c])) eqn:E'; [done|].
    destruct (FSFacts.write_file_ok t' q c (Lib.json_dumps m) Hc E E') as [t2 Ht2].
    congruence.
  - apply HE1. left. by eapply FSFacts.mkdir_p_fail.
Qed.

(** Two branches that differ in the dictionary and the file system only
    are followed by one continuation. *)
Lemma wp_join {A} (P : dict -> Prop) (c : M A) (Q : res A -> world -> Prop) W :
  wp c (fun r w1 => match r with
                    | Ok a => exists t m, w1 = set_meta m (set_fs t W) /\ P m
                    | _ => Q r w1
                    end) W ->
  (forall a t m, P m -> Q (Ok a) (set_meta m (set_fs t W))) ->
  wp c Q W.
Proof.
  unfold wp. destruct (c W) as [[a|v|e] w1]; simpl; [|done..].
  intros (t & m & -> & Hm) H. by apply H.
Qed.

(** A computation that only looks. *)
Lemma wp_and_exists p (Q : res bool -> world -> Prop) w :
  (forall b, Q (Ok b) w) -> wp (and_exists p) Q w.
Proof. intros H. destruct p; apply H. Qed.

#[local] Arguments _tail : simpl never.
#[local] Arguments str : simpl never.
#[local] Arguments Str.join : simpl never.
#[local] Arguments Str.of_Z : simpl never.
#[local] Arguments repr : simpl never.
#[local] Arguments joinpath : simpl never.
#[local] Arguments name : simpl never.
#[local] Arguments String.append : simpl never.
#[local] Arguments initial_meta : simpl never.

Lemma meta_path_snoc (job_dir : path) :
  job_dir // "meta.json" = job_dir ++ ["meta.json"].
Proof. reflexivity. Qed.

Ltac wp_cut :=
  lazymatch goal with
  | |- wp (_read_meta _) _ _ => apply wp_read_meta; [|intros ?]
  | |- wp (_write_meta _ _) _ _ =>
      rewrite meta_path_snoc;
      apply wp_write_meta_at; wp_norm; [done | intros ? | intros ? ? | intros ? ? ?];
      rewrite <- ?meta_path_snoc
  | |- wp (and_exists _) _ _ => apply wp_and_exists; intros ?
  | |- wp (if _ then and_exists _ else ret _) _ _ =>
      match goal with |- wp (if ?b then _ else _) _ _ => destruct b end;
      [apply wp_and_exists; intros ? | apply wp_ret]
  end; wp_norm.

Ltac join_leaf :=
  lazymatch goal with
  | |- exists t m, _ = _ /\ _ =>
      eexists _, _; split;
      [ reflexivity
      | split; [same_else | dict_simpl; first [by left | by right]] ]
  end.

Ltac wp_ustep m0 :=
  lazymatch goal with
  | |- wp (bind (if _ then and_exists _ else ret _) _) _ _ => apply wp_bind; wp_cut
  | |- wp (bind (if negb (is_str _ _ || _) then _ else _) _) _ _ => wp_step
  | |- wp (bind (if _ then _ else _) _) _ ?W =>
      let prev := eval cbn [w_meta set_meta set_fs log_event] in (w_meta W !! "status") in
      apply wp_bind; apply (wp_join (meta_step m0 prev));
      [ wp_norm | intros ? ? ? ?; wp_norm ]
  | |- wp _ _ _ => first [ wp_cut | wp_step ]
  end.

(** Settle the status of a dictionary that went through branches. *)
Ltac status_split :=
  repeat match goal with
         | H : meta_step _ _ _ |- _ => destruct H as [? [?|?]]
         end;
  repeat match goal with
         | H : _ !! "status" = _ |- _ =>
             progress (rewrite ?lookup_insert_str in H;
                       cbn [String.eqb Ascii.eqb Bool.eqb] in H)
         end;
  repeat match goal with
         | H : ?m !! "status" = _, H' : context [?m !! "status"] |- _ =>
             lazymatch H' with H => fail | _ => rewrite H in H' end
         end;
  repeat match goal with
         | H : ?m !! "status" = _ |- context [?m !! "status"] => rewrite H
         end.

Ltac trace_split :=
  first
    [ exists []; split; [by rewrite app_nil_r|]
    | eexists; split; [rewrite <- ?app_assoc; reflexivity|] ].

Ltac facts_fields :=
  split;
  [ (* rf_frame *)
    simpl; repeat constructor; same_else
  | (* rf_result *)
    intros ? Hr;
    first [ discriminate Hr
          | injection Hr as <-; split; [same_else | reflexivity] ]
  | (* rf_statuses *)
    unfold statuses; simpl; dict_simpl;
    unfold worker_statuses; apply list_elem_of_In;
    first [ solve [simpl; tauto]
          | status_split; try discriminate; simpl; tauto ]
  | (* rf_caught *)
    simpl; intros ? He;
    first
      [ by apply elem_of_nil in He
      | apply list_elem_of_singleton in He as ->; split; [done|];
        first
          [ left; eexists; split; [reflexivity|]; by dict_simpl
          | right; eexists; split; [reflexivity|]; assumption ] ]
  | (* rf_raise *)
    intros ? Hr Hc; first [ discriminate Hr | discriminate Hc | reflexivity ]
  | (* rf_launch *)
    simpl; intros ? ? Hin;
    repeat (apply elem_of_cons in Hin as [Heq|Hin];
            [first [discriminate Heq | congruence]|]);
    by apply elem_of_nil in Hin
  | (* rf_first_run *)
    simpl; intros ? ? ? Hr;
    first [ discriminate Hr
          | injection Hr as <- <- _; repeat split; congruence ]
  | (* rf_not_return *)
    intros ? ?; discriminate ].

Ltac facts_leaf := trace_split; facts_fields.

Ltac facts_go m0 :=
  tryif wp_ustep m0 then facts_go m0
  else first [ join_leaf | facts_leaf ].

(** The steps before [try:], each branch followed on its own. *)
Ltac setup_go :=
  lazymatch goal with
  | |- wp _ _ _ => first [ wp_cut | wp_step ]; setup_go
  | |- _ => idtac
  end.

Section Worker.
Variable file_ : path.
Variable os_run : list string -> node -> proc.

Notation job_dir j := (DATA_DIR file_ // j).
Notation input_dir j := (DATA_DIR file_ // j // "input").
Notation output_dir j := (DATA_DIR file_ // j // "output").
Notation meta_path j := (DATA_DIR file_ // j // "meta.json").
Notation colmap_cmd j :=
  ["bash"; str (RUN_COLMAP_SH file_); str (input_dir j); str (output_dir j)].
Notation gs_cmd j :=
  ["bash"; str (RUN_3DGS_SH file_); str (input_dir j); str (output_dir j)].

(** The setup either ends the run, or leaves the record marked [running],
    written once. *)
Lemma recon_setup_facts j w r0 resA :
  let m0 := initial_meta (w_fs w) (meta_path j) in
  let m1 := <["status" := VStr "running"]> m0 in
  wp (recon_setup file_ j)
    (fun r w' =>
       match r with
       | Ok _ =>
           w_trace w' = w_trace w ++ [EvWrite (meta_path j) m1] /\ w_meta w' = m1
       | Return v =>
           exists l, w_trace w' = w_trace w ++ l
                     /\ run_facts (job_dir j) (meta_path j) m0 r0 (colmap_cmd j) resA
                          l (Ok v) (w_fs w')
       | Raise e =>
           exists l, w_trace w' = w_trace w ++ l
                     /\ run_facts (job_dir j) (meta_path j) m0 r0 (colmap_cmd j) resA
                          l (Raise e) (w_fs w')
       end)
    w.
Proof.
  intros m0 m1. subst m0 m1. unfold recon_setup, _job_paths. cbv zeta beta iota.
  setup_go; try solve [facts_leaf]; done.
Qed.

(** Every run of the worker task. *)
Lemma recon_job_facts j w :
  let setup := recon_setup file_ j w in
  wp (recon_job file_ os_run j)
    (fun r w' =>
       exists l, w_trace w' = w_trace w ++ l
                 /\ run_facts (job_dir j) (meta_path j)
                      (initial_meta (w_fs w) (meta_path j))
                      (fst setup) (colmap_cmd j) (os_run (colmap_cmd j) (w_fs (snd setup)))
                      l r (w_fs w'))
    w.
Proof.
  intros setup. unfold recon_job, _job_paths. cbv zeta beta iota.
  apply wp_call, wp_bind.
  pose proof (recon_setup_facts j w (fst setup)
                (os_run (colmap_cmd j) (w_fs (snd setup)))) as Hs.
  cbv zeta in Hs. unfold wp in Hs |- * at 1. fold setup in Hs |- *.
  destruct setup as [[[]|v|e] w0] eqn:Es; cbn [fst snd] in *; [|done..].
  destruct Hs as [Ht Hm]. destruct w0 as [t0 mm en dr br qu tr].
  cbn [w_trace w_meta] in Ht, Hm. subst mm tr.
  facts_go (initial_meta (w_fs w) (meta_path j)).
Qed.

End Worker.

(** ** The worker task: frame and faults *)

Lemma new_events_app w w' l : w_trace w' = w_trace w ++ l -> new_events w w' = l.
Proof. intros H. unfold new_events. rewrite H. apply drop_app_length. Qed.

Lemma same_elsewhere_key m0 m k :
  same_elsewhere m0 m -> is_assigned k = false -> m !! k = m0 !! k.
Proof.
  intros H Hk. apply H. intros Hin. apply list_elem_of_In in Hin.
  assert (is_assigned k = true); [|congruence].
  unfold is_assigned. apply existsb_exists. exists k. split; [done|].
  apply String.eqb_refl.
Qed.

Section WorkerClaims.
Variable file_ : path.
Variable os_run : list string -> node -> proc.

(** C10. Every metadata document a run of the worker task writes, and the
    record it returns, agree with the document the job had at the start of
    the run on every key the task does not assign: [job_id], [input_count]
    and [files] among them keep their values; only the status, diagnostic,
    artifact and advisory fields are added or overwritten. *)
Theorem recon_job_keeps_identity (job_id : string) (w : world) :
  let '(job_dir, input_dir, output_dir, meta_path) := _job_paths file_ job_id in
  let m0 := initial_meta (w_fs w) meta_path in
  let run := recon_job file_ os_run job_id w in
  let kept := fun m : dict =>
    m !! "job_id" = m0 !! "job_id"
    /\ m !! "input_count" = m0 !! "input_count"
    /\ m !! "files" = m0 !! "files"
    /\ same_elsewhere m0 m in
  Forall kept (writes (new_events w (snd run)))
  /\ (forall m, fst run = Ok m -> kept m).
Proof.
  cbv beta iota zeta delta [_job_paths].
  destruct (recon_job_facts file_ os_run job_id w) as (l & Htr & F).
  rewrite (new_events_app _ _ _ Htr).
  assert (forall m, same_elsewhere (initial_meta (w_fs w)
                      (DATA_DIR file_ // job_id // "meta.json")) m ->
            m !! "job_id" = initial_meta (w_fs w)
                              (DATA_DIR file_ // job_id // "meta.json") !! "job_id"
            /\ m !! "input_count" = initial_meta (w_fs w)
                              (DATA_DIR file_ // job_id // "meta.json") !! "input_count"
            /\ m !! "files" = initial_meta (w_fs w)
                              (DATA_DIR file_ // job_id // "meta.json") !! "files"
            /\ same_elsewhere (initial_meta (w_fs w)
                              (DATA_DIR file_ // job_id // "meta.json")) m) as Hk.
  { intros m Hm. repeat split; try done; by apply same_elsewhere_key. }
  split.
  - eapply Forall_impl; [apply (rf_frame _ _ _ _ _ _ _ _ _ F)|]. apply Hk.
  - intros m Hm. apply Hk. by apply (rf_result _ _ _ _ _ _ _ _ _ F).
Qed.


End WorkerClaims.

(** ** Resolving result files *)

Lemma first_existing_wins t l : first_wins t l (first_existing t l).
Proof.
  induction l as [|p l IH]; simpl; [constructor|].
  destruct (FS.path_exists t p) eqn:E.
  - exists [], l. by repeat split.
  - destruct (first_existing t l) as [q|]; simpl in *.
    + destruct IH as (before & after & -> & Hq & Hb).
      exists (p :: before), after. repeat split; [done|]. by constructor.
    + by constructor.
Qed.

Lemma first_existing_Some t l p :
  first_existing t l = Some p -> p ∈ l /\ FS.path_exists t p = true.
Proof.
  induction l as [|q l IH]; simpl; [done|].
  destruct (FS.path_exists t q) eqn:E.
  - intros [= <-]. split; [left|done].
  - intros H. destruct (IH H). split; [by right|done].
Qed.

Lemma first_existing_None t l :
  first_existing t l = None <-> Forall (fun q => FS.path_exists t q = false) l.
Proof.
  induction l as [|q l IH]; simpl; [done|].
  destruct (FS.path_exists t q) eqn:E.
  - split; [done|]. intros H. inversion H; congruence.
  - rewrite IH. split; [by constructor | by inversion 1].
Qed.

Lemma first_existing_ext t t' l :
  Forall (fun q => FS.path_exists t' q = FS.path_exists t q) l ->
  first_existing t' l = first_existing t l.
Proof.
  induction 1 as [|q l Hq _ IH]; simpl; [done|]. by rewrite Hq, IH.
Qed.

Lemma ply_candidates_eq (output_dir : path) :
  ply_candidates output_dir =
  [ output_dir ++ ["points.ply"];
    output_dir ++ ["points_dense.ply"];
    output_dir ++ ["points_sparse.ply"];
    output_dir ++ ["dense"; "0"; "points.ply"] ].
Proof.
  unfold ply_candidates. repeat f_equal.
  change (output_dir // "dense" // "0" // "points.ply")
    with (((output_dir ++ ["dense"]) ++ ["0"]) ++ ["points.ply"]).
  by rewrite <- !app_assoc.
Qed.

Lemma splat_candidates_eq (output_dir : path) :
  splat_candidates output_dir =
  [ output_dir ++ ["scene.splat"];
    output_dir ++ ["gaussians.splat"];
    output_dir ++ ["3dgs"; "scene.splat"];
    output_dir ++ ["3dgs"; "gaussians.splat"] ].
Proof.
  unfold splat_candidates. repeat f_equal.
  - change (output_dir // "3dgs" // "scene.splat")
      with ((output_dir ++ ["3dgs"]) ++ ["scene.splat"]).
    by rewrite <- !app_assoc.
  - change (output_dir // "3dgs" // "gaussians.splat")
      with ((output_dir ++ ["3dgs"]) ++ ["gaussians.splat"]).
    by rewrite <- !app_assoc.
Qed.


(** ** Looking up a job that was never created *)

Section Unknown.
Variable file_ : path.

Lemma no_job_no_ply job_id t :
  FS.path_exists t (DATA_DIR file_ // job_id) = false ->
  first_existing t (ply_candidates (DATA_DIR file_ // job_id // "output")) = None.
Proof.
  intros H. rewrite ply_candidates_eq. apply first_existing_None.
  change (DATA_DIR file_ // job_id // "output")
    with ((DATA_DIR file_ // job_id) ++ ["output"]).
  repeat constructor; rewrite <- app_assoc;
    by apply FSFacts.path_exists_app.
Qed.

Lemma no_job_no_splat job_id t :
  FS.path_exists t (DATA_DIR file_ // job_id) = false ->
  first_existing t (splat_candidates (DATA_DIR file_ // job_id // "output")) = None.
Proof.
  intros H. rewrite splat_candidates_eq. apply first_existing_None.
  change (DATA_DIR file_ // job_id // "output")
    with ((DATA_DIR file_ // job_id) ++ ["output"]).
  repeat constructor; rewrite <- app_assoc;
    by apply FSFacts.path_exists_app.
Qed.


End Unknown.


(** ** Job creation *)

Lemma bind_ok {A B} (c : M A) (k : A -> M B) w a w1 :
  c w = (Ok a, w1) -> bind c k w = k a w1.
Proof. unfold bind. by intros ->. Qed.

Lemma effect_ok f w t' : f (w_fs w) = FS.Done t' -> effect f w = (Ok tt, set_fs t' w).
Proof. unfold effect. by intros ->. Qed.

Lemma same_session_refl w : same_session w w.
Proof. by repeat split. Qed.

Lemma flat_dir_ext t t' d :
  (forall r, FS.is_dir t' r = FS.is_dir t r) -> flat_dir t d -> flat_dir t' d.
Proof. intros H [H1 H2]. split; [by rewrite H|]. intros k Hk. rewrite H. auto. Qed.

Section SaveFiles.
Import FS FSFacts MkdirFacts PathFacts NameFacts.

Variable input_dir : path.
Hypothesis input_name : Str.contains "/" (name input_dir) = false.

(** One turn of the loop: the upload is written to a plain name of the
    input directory, its sanitized name when that is free. *)
Lemma save_one f rest saved w :
  flat_dir (w_fs w) input_dir ->
  exists n' t' w1,
    plain_name n' = true
    /\ write_file (w_fs w) (input_dir ++ [n']) (Blob (data f)) = Done t'
    /\ w_fs w1 = w_fs w /\ same_session w w1
    /\ save_files input_dir (f :: rest) saved w
       = save_files input_dir rest (saved ++ [n']) (set_fs t' w1)
    /\ (path_exists (w_fs w) (input_dir // sanitized f) = false ->
        n' = sanitized f /\ w_drawn w1 = w_drawn w)
    /\ (path_exists (w_fs w) (input_dir // sanitized f) = true ->
        n' = renamed (input_dir // sanitized f) (Lib.uuid4_int (w_entropy w (w_drawn w)))
        /\ w_drawn w1 = S (w_drawn w)).
Proof.
  intros [Hd Hflat].
  assert (forall n', plain_name n' = true ->
            exists t', write_file (w_fs w) (input_dir ++ [n']) (Blob (data f)) = Done t')
    as Hwrite.
  { intros n' Hn'. apply plain_name_spec in Hn' as (_ & _ & Hn' & _).
    apply write_file_ok; auto. }
  assert (Str.contains "/" (name (input_dir // sanitized f)) = false
          /\ (plain_name (sanitized f) = true
              \/ path_exists (w_fs w) (input_dir // sanitized f) = true)) as [Hns Hcase].
  { unfold sanitized.
    set (n0 := match filename f with
               | Some n => if String.eqb n "" then "image.jpg" else n
               | None => "image.jpg"
               end).
    assert (n0 <> "") as Hn0.
    { subst n0. destruct (filename f) as [n|]; [|done]. by destruct (String.eqb_spec n ""). }
    destruct (safe_filename_cases n0 Hn0) as [Hp|[->| ->]].
    - rewrite (joinpath_plain _ _ Hp), name_snoc.
      pose proof (plain_name_spec _ Hp) as (_ & _ & _ & Hp'). auto.
    - change (input_dir // ".") with (input_dir ++ []). rewrite app_nil_r.
      split; [done|]. right. by apply is_dir_exists.
    - change (input_dir // "..") with (input_dir ++ [".."]). rewrite name_snoc.
      split; [done|]. right. by apply path_exists_dotdot. }
  cbn [save_files]. fold (sanitized f).
  rewrite (bind_ok (Lib.exists_ (input_dir // sanitized f)) _ w
             (path_exists (w_fs w) (input_dir // sanitized f)) w eq_refl).
  destruct (path_exists (w_fs w) (input_dir // sanitized f)) eqn:E.
  - set (n' := renamed (input_dir // sanitized f) (Lib.uuid4_int (w_entropy w (w_drawn w)))).
    destruct (Hwrite n' (renamed_plain _ _ Hns)) as [t' Ht'].
    exists n', t', (set_drawn (S (w_drawn w)) w).
    split; [by apply renamed_plain|]. split; [done|]. split; [done|].
    split; [by repeat split|]. split; [|split; [done|by intros _]].
    rewrite (bind_ok _ _ w (input_dir ++ [n']) (set_drawn (S (w_drawn w)) w)).
    2:{ unfold bind, Lib.uuid4_hex, ret. fold (renamed (input_dir // sanitized f)
          (Lib.uuid4_int (w_entropy w (w_drawn w)))). fold n'.
        by rewrite (joinpath_plain _ n' (renamed_plain _ _ Hns)). }
    rewrite (bind_ok _ _ _ tt (set_fs t' (set_drawn (S (w_drawn w)) w))).
    2:{ by apply effect_ok. }
    by rewrite name_snoc.
  - destruct Hcase as [Hp|]; [|done].
    destruct (Hwrite _ Hp) as [t' Ht'].
    exists (sanitized f), t', w.
    split; [done|]. split; [done|]. split; [done|].
    split; [apply same_session_refl|]. split; [|split; [done|done]].
    rewrite (bind_ok _ _ w (input_dir ++ [sanitized f]) w).
    2:{ by rewrite (joinpath_plain _ _ Hp). }
    rewrite (bind_ok _ _ _ tt (set_fs t' w)).
    2:{ by apply effect_ok. }
    by rewrite name_snoc.
Qed.

(** The loop stores every upload and changes nothing but files of the
    input directory. *)
Lemma save_files_ok files : forall saved w,
  flat_dir (w_fs w) input_dir ->
  exists names w',
    save_files input_dir files saved w = (Ok (saved ++ names), w')
    /\ length names = length files
    /\ same_session w w'
    /\ (forall r, is_dir (w_fs w') r = is_dir (w_fs w) r).
Proof.
  induction files as [|f rest IH]; intros saved w Hflat.
  { exists [], w. rewrite app_nil_r. split; [done|]. split; [done|].
    split; [apply same_session_refl|done]. }
  destruct (save_one f rest saved w Hflat)
    as (n' & t' & w1 & _ & Ht' & Hfs & (Hm & Htr & Hen & Hbr & Hqu) & Heq & _).
  assert (forall r, is_dir t' r = is_dir (w_fs w) r) as Hdir.
  { intros r. by eapply write_file_is_dir. }
  destruct (IH (saved ++ [n']) (set_fs t' w1)) as (names & w' & Hrun & Hlen & Hs & Hd).
  { by apply (flat_dir_ext (w_fs w)). }
  exists (n' :: names), w'. rewrite Heq, Hrun, <- app_assoc.
  split; [done|]. split; [simpl; by rewrite Hlen|].
  destruct Hs as (Hm' & Htr' & Hen' & Hbr' & Hqu').
  split; [repeat split; cbn in *; congruence|].
  intros r. rewrite Hd. apply Hdir.
Qed.

End SaveFiles.

Lemma write_meta_ok q c m w :
  c <> ".." -> FS.is_dir (w_fs w) q = true -> FS.is_dir (w_fs w) (q ++ [c]) = false ->
  exists t', FS.write_file (w_fs w) (q ++ [c]) (Doc m) = FS.Done t'
             /\ _write_meta (q ++ [c]) m w
                = (Ok tt, log_event (EvWrite (q ++ [c]) m) (set_fs t' w)).
Proof.
  intros Hc Hq Hf.
  destruct (FSFacts.write_file_ok (w_fs w) q c (Doc m) Hc Hq Hf) as [t' Ht'].
  exists t'. split; [done|]. unfold _write_meta. rewrite PathFacts.parent_snoc.
  rewrite (bind_ok _ _ w tt (set_fs (w_fs w) w)).
  2:{ apply effect_ok. by apply FSFacts.mkdir_p_noop. }
  rewrite (bind_ok _ _ _ tt (set_fs t' w)); [done|].
  unfold Lib.write, effect. cbn [w_fs set_fs]. unfold Lib.json_dumps. by rewrite Ht'.
Qed.

Lemma enqueue_ok j w :
  w_broker_up w = true ->
  exists rq w', Lib.enqueue j w = (Ok rq, w')
                /\ w_fs w' = w_fs w /\ w_meta w' = w_meta w /\ w_trace w' = w_trace w.
Proof. intros H. unfold Lib.enqueue. rewrite H. by eexists _, _. Qed.

Section CreateJob.
Import FS FSFacts MkdirFacts PathFacts NameFacts.
Variable file_ : path.

Lemma stat_of_is_dir t p : is_dir t p = true -> exists es, stat t p = Some (Dir es).
Proof. unfold is_dir. destruct (stat t p) as [[|es]|]; try done. eauto. Qed.

(** The two directories of a new job, made under an existing data
    directory. *)
Lemma job_dirs_made t j :
  is_dir t (DATA_DIR file_) = true -> plain_name j = true ->
  path_exists t (DATA_DIR file_ ++ [j]) = false ->
  exists t2 t3,
    mkdir_p t ((DATA_DIR file_ ++ [j]) ++ ["input"]) = Done t2
    /\ mkdir_p t2 ((DATA_DIR file_ ++ [j]) ++ ["output"]) = Done t3
    /\ stat t3 (DATA_DIR file_ ++ [j])
       = Some (Dir (<["output" := Dir ∅]> {["input" := Dir ∅]})).
Proof.
  intros Hd Hj Hn. apply stat_of_is_dir in Hd as [es Hes].
  apply plain_name_spec in Hj as (_ & _ & Hj & _).
  assert (es !! j = None) as Hfresh.
  { unfold path_exists in Hn. rewrite stat_snoc, Hes in Hn by done.
    by destruct (es !! j). }
  destruct (mkdir_grandchild t _ j "input" es Hes Hj ltac:(done) Hfresh)
    as (t2 & Ht2 & Hs2 & _).
  destruct (mkdir_child t2 _ "output" _ Hs2 ltac:(done) ltac:(done))
    as (t3 & Ht3 & Hs3 & _).
  by exists t2, t3.
Qed.

(** A successful call of [create_job], step by step. *)
Lemma create_job_run files w :
  2 <= length files ->
  is_dir (w_fs w) (DATA_DIR file_) = true ->
  path_exists (w_fs w) (DATA_DIR file_ ++ [next_job_id w]) = false ->
  w_broker_up w = true ->
  let jd := DATA_DIR file_ ++ [next_job_id w] in
  exists t3 names w3 t4 rq t5 w',
    stat t3 jd = Some (Dir (<["output" := Dir ∅]> {["input" := Dir ∅]}))
    /\ save_files (jd ++ ["input"]) files [] (set_fs t3 (set_drawn (S (w_drawn w)) w))
       = (Ok names, w3)
    /\ length names = length files
    /\ write_file (w_fs w3) (jd ++ ["meta.json"]) (Doc (queued_doc (next_job_id w) names))
       = Done t4
    /\ write_file t4 (jd ++ ["meta.json"])
         (Doc (<["rq_id" := VStr rq]> (queued_doc (next_job_id w) names))) = Done t5
    /\ create_job file_ files w
       = (Ok {| jc_job_id := next_job_id w; jc_status := "queued";
                jc_input_count := length files |}, w')
    /\ w_fs w' = t5
    /\ w_meta w' = <["rq_id" := VStr rq]> (queued_doc (next_job_id w) names)
    /\ w_trace w'
       = w_trace w ++ [EvWrite (jd ++ ["meta.json"]) (queued_doc (next_job_id w) names);
                       EvWrite (jd ++ ["meta.json"])
                         (<["rq_id" := VStr rq]> (queued_doc (next_job_id w) names))].
Proof.
  intros Hlen Hd Hfresh Hbroker jd.
  pose proof (job_id_plain (Lib.uuid4_int (w_entropy w (w_drawn w)))) as Hj.
  fold (next_job_id w) in Hj.
  destruct (job_dirs_made _ _ Hd Hj Hfresh) as (t2 & t3 & Ht2 & Ht3 & Hs3).
  fold jd in Ht2, Ht3, Hs3.
  assert (stat t3 (jd ++ ["input"]) = Some (Dir ∅)) as Hin.
  { rewrite stat_snoc, Hs3 by done. done. }
  assert (flat_dir t3 (jd ++ ["input"])) as Hflat.
  { split; [by eapply is_dir_of_stat|]. intros k Hk. unfold is_dir.
    rewrite stat_snoc, Hin by done. by rewrite lookup_empty. }
  destruct (save_files_ok (jd ++ ["input"]) ltac:(by rewrite name_snoc) files []
              (set_fs t3 (set_drawn (S (w_drawn w)) w)) Hflat)
    as (names & w3 & Hsave & Hnames & (Hm3 & Htr3 & Hen3 & Hbr3 & Hqu3) & Hdir3).
  rewrite app_nil_l in Hsave.
  cbn [w_fs w_meta w_trace w_entropy w_broker_up w_queue set_fs set_drawn] in *.
  set (d1 := queued_doc (next_job_id w) names).
  destruct (write_meta_ok jd "meta.json" d1 (set_meta d1 w3)) as (t4 & Ht4 & Hw4);
    [done| |  |].
  { cbn [w_fs set_meta]. rewrite Hdir3. by eapply is_dir_of_stat. }
  { cbn [w_fs set_meta]. rewrite Hdir3. unfold is_dir.
    rewrite stat_snoc, Hs3 by done. done. }
  cbn [w_fs set_meta] in Ht4.
  destruct (enqueue_ok (next_job_id w)
              (log_event (EvWrite (jd ++ ["meta.json"]) d1) (set_fs t4 (set_meta d1 w3))))
    as (rq & w5 & Hq & Hfs5 & Hm5 & Htr5).
  { cbn [w_broker_up log_event set_fs set_meta]. congruence. }
  cbn [w_fs w_meta w_trace log_event set_fs set_meta] in Hfs5, Hm5, Htr5.
  set (d2 := <["rq_id" := VStr rq]> d1).
  destruct (write_meta_ok jd "meta.json" d2 (set_meta d2 w5)) as (t5 & Ht5 & Hw5);
    [done| | |].
  { cbn [w_fs set_meta]. rewrite Hfs5. erewrite write_file_is_dir by done.
    rewrite Hdir3. by eapply is_dir_of_stat. }
  { cbn [w_fs set_meta]. rewrite Hfs5. erewrite write_file_is_dir by done.
    rewrite Hdir3. unfold is_dir. rewrite stat_snoc, Hs3 by done. done. }
  cbn [w_fs set_meta] in Ht5. rewrite Hfs5 in Ht5.
  exists t3, names, w3, t4, rq, t5.
  eexists. split; [done|]. split; [done|]. split; [done|]. split; [done|]. split; [done|].
  assert (create_job file_ files w
          = (Ok {| jc_job_id := next_job_id w; jc_status := "queued";
                   jc_input_count := length files |},
             log_event (EvWrite (jd ++ ["meta.json"]) d2) (set_fs t5 (set_meta d2 w5))))
    as ->.
  { unfold create_job. destruct (Nat.ltb_spec (length files) 2) as [|_]; [lia|].
    rewrite (bind_ok Lib.uuid4_hex _ w _ _ eq_refl). fold (next_job_id w).
    cbv zeta. unfold _job_paths. cbv zeta beta iota.
    rewrite (joinpath_plain _ _ Hj). fold jd.
    rewrite !(joinpath_plain jd) by done.
    rewrite (bind_ok _ _ _ tt (set_fs t2 (set_drawn (S (w_drawn w)) w)))
      by (by apply effect_ok).
    rewrite (bind_ok _ _ _ tt (set_fs t3 (set_drawn (S (w_drawn w)) w)))
      by (by apply (effect_ok _ (set_fs t2 (set_drawn (S (w_drawn w)) w)) t3)).
    rewrite (bind_ok _ _ _ _ _ Hsave).
    rewrite (bind_ok _ _ _ tt (set_meta d1 w3)) by done.
    rewrite (bind_ok meta_obj _ _ d1 (set_meta d1 w3)) by done.
    rewrite (bind_ok _ _ _ _ _ Hw4).
    rewrite (bind_ok _ _ _ _ _ Hq).
    rewrite (bind_ok _ _ _ tt (set_meta d2 w5)).
    2:{ unfold meta_set. by rewrite Hm5. }
    rewrite (bind_ok meta_obj _ _ d2 (set_meta d2 w5)) by done.
    rewrite (bind_ok _ _ _ _ _ Hw5). unfold ret. by rewrite Hnames. }
  split; [done|]. split; [done|]. split; [done|].
  cbn [w_trace log_event set_fs set_meta]. rewrite Htr5, Htr3, <- app_assoc. done.
Qed.

End CreateJob.

(** *** The claims on job creation *)

Module FrameFacts.
Import FS FSFacts PathFacts.

(** Writing [q/c] leaves what is at [q/d/c'] alone. *)
Lemma write_file_frame_below t q c x t' d c' :
  write_file t (q ++ [c]) x = Done t' ->
  c <> ".." -> d <> ".." -> c' <> ".." ->
  kind (stat t' ((q ++ [d]) ++ [c'])) = kind (stat t ((q ++ [d]) ++ [c'])).
Proof.
  intros H Hc Hd Hc'. rewrite (write_file_stat _ _ _ _ _ H).
  destruct (decide _) as [E|]; [exfalso|done].
  destruct (write_file_inv _ _ _ _ H) as (Q & HQ & _). rewrite HQ in E.
  rewrite locate_snoc in HQ. rewrite !locate_snoc in E.
  destruct (locate t q) as [q0|]; [|done]. simpl in *.
  destruct (dirb (lookup_node t q0)); [|done]. simpl in *.
  rewrite !resolve_step_plain in * by done.
  destruct (dirb (lookup_node t (q0 ++ [d]))); [|done].
  inversion HQ; subst. inversion E as [E']. apply app_inj_tail in E' as [E' _].
  apply (f_equal length) in E'. rewrite length_app in E'. simpl in E'. lia.
Qed.

Lemma read_file_exists t p x : read_file t p = Done x -> path_exists t p = true.
Proof. unfold read_file, path_exists. by destruct (stat t p) as [[|]|]. Qed.

End FrameFacts.

Section CreateJobClaims.
Import FS FSFacts MkdirFacts PathFacts NameFacts FrameFacts.
Variable file_ : path.



End CreateJobClaims.

(** *** What job creation writes *)

Lemma save_files_trace input_dir files : forall saved w (Q : res (list string) -> world -> Prop),
  (forall r w', w_trace w' = w_trace w -> w_meta w' = w_meta w -> Q r w') ->
  wp (save_files input_dir files saved) Q w.
Proof.
  induction files as [|f rest IH]; intros saved w Q H.
  { by apply H. }
  cbn [save_files]. repeat wp_step;
    first [ apply IH; intros; apply H; assumption | by apply H ].
Qed.

Lemma wp_enqueue j (Q : res string -> world -> Prop) w :
  (forall rq w', w_trace w' = w_trace w -> w_meta w' = w_meta w -> Q (Ok rq) w') ->
  Q (Raise ConnectionError) w ->
  wp (Lib.enqueue j) Q w.
Proof.
  intros H1 H2. unfold wp, Lib.enqueue. destruct (w_broker_up w); [|done]. by apply H1.
Qed.

(** A call of [create_job] that succeeds has written the job's document
    twice, with the status [queued] both times. *)
Lemma create_job_trace file_ files w :
  wp (create_job file_ files)
    (fun r w' =>
       forall resp, r = Ok resp ->
         exists d1 d2,
           w_trace w'
           = w_trace w ++ [EvWrite (DATA_DIR file_ // jc_job_id resp // "meta.json") d1;
                           EvWrite (DATA_DIR file_ // jc_job_id resp // "meta.json") d2]
           /\ d1 !! "status" = Some (VStr "queued")
           /\ d2 !! "status" = Some (VStr "queued"))
    w.
Proof.
  unfold create_job. destruct (length files <? 2)%nat; [by wp_step|].
  wp_step. wp_step. unfold _job_paths. cbv zeta beta iota.
  repeat wp_step; try done.
  apply save_files_trace. intros [saved|v|e] w3 Htr3 Hm3; wp_norm; try done.
  repeat wp_step. apply wp_write_meta; wp_norm; [intros t4|done..].
  wp_step. apply wp_enqueue; wp_norm; [intros rq w5 Htr5 Hm5|done].
  repeat wp_step. apply wp_write_meta; wp_norm; [intros t5|done..].
  wp_step. intros resp [= <-]. cbn [jc_job_id].
  eexists _, _. rewrite Htr5, Htr3, <- app_assoc. split; [reflexivity|].
  rewrite Hm5. split; by dict_simpl.
Qed.

(** ** The worker task, scenario by scenario *)

(** Steps whose outcome is known. *)
Lemma wp_effect_ok f t' (Q : res unit -> world -> Prop) w :
  f (w_fs w) = FS.Done t' -> Q (Ok tt) (set_fs t' w) -> wp (effect f) Q w.
Proof. intros H HQ. unfold wp, effect. by rewrite H. Qed.

Lemma wp_subprocess_ok os_run cmd p t' (Q : res CompletedProcess -> world -> Prop) w :
  os_run cmd (w_fs w) = Exited p t' ->
  Q (Ok p) (log_event (EvRun cmd (Exited p t')) (set_fs t' w)) ->
  wp (subprocess_run os_run cmd) Q w.
Proof. intros H HQ. unfold wp, subprocess_run. by rewrite H. Qed.

Lemma wp_write_meta_ok q c m (Q : res unit -> world -> Prop) w :
  c <> ".." -> FS.is_dir (w_fs w) q = true -> FS.is_dir (w_fs w) (q ++ [c]) = false ->
  (forall t', FS.write_file (w_fs w) (q ++ [c]) (Doc m) = FS.Done t' ->
     Q (Ok tt) (log_event (EvWrite (q ++ [c]) m) (set_fs t' w))) ->
  wp (_write_meta (q ++ [c]) m) Q w.
Proof.
  intros Hc Hq Hf HQ. destruct (write_meta_ok q c m w Hc Hq Hf) as (t' & Ht' & Heq).
  unfold wp. rewrite Heq. by apply HQ.
Qed.

(** Two branches that differ in the dictionary and the file system are
    followed by one continuation, which knows [P] of both. *)
Lemma wp_join_fs {A} (P : node -> dict -> Prop) (c : M A)
    (Q : res A -> world -> Prop) W :
  wp c (fun r w1 => match r with
                    | Ok a => exists t m, w1 = set_meta m (set_fs t W) /\ P t m
                    | _ => Q r w1
                    end) W ->
  (forall a t m, P t m -> Q (Ok a) (set_meta m (set_fs t W))) ->
  wp c Q W.
Proof.
  unfold wp. destruct (c W) as [[a|v|e] w1]; simpl; [|done..].
  intros (t & m & -> & Hm) H. by apply H.
Qed.

Lemma read_meta_ok p m w :
  FS.read_file (w_fs w) p = FS.Done (Doc m) -> _read_meta p w = (Ok m, w).
Proof.
  intros H. unfold _read_meta, bind, Lib.exists_, inspect, Lib.read_text, lift_result.
  cbn [fst snd]. rewrite (FrameFacts.read_file_exists _ _ _ H). cbn. by rewrite H.
Qed.

Lemma and_exists_found c w :
  and_exists (first_existing (w_fs w) c) w = (Ok (found (first_existing (w_fs w) c)), w).
Proof.
  destruct (first_existing (w_fs w) c) as [p|] eqn:E; [|done].
  apply first_existing_Some in E as [_ E]. unfold and_exists, Lib.exists_, inspect.
  by rewrite E.
Qed.

Section Scenarios.
Variable file_ : path.
Variable os_run : list string -> node -> proc.

Notation job_dir j := (DATA_DIR file_ // j).
Notation input_dir j := (DATA_DIR file_ // j // "input").
Notation output_dir j := (DATA_DIR file_ // j // "output").
Notation meta_path j := (DATA_DIR file_ // j // "meta.json").
Notation colmap_cmd j :=
  ["bash"; str (RUN_COLMAP_SH file_); str (input_dir j); str (output_dir j)].
Notation gs_cmd j :=
  ["bash"; str (RUN_3DGS_SH file_); str (input_dir j); str (output_dir j)].

(** A run that launched a subprocess went through the setup steps: the
    statements inside [try:] start from the record marked [running],
    written once, and the first subprocess is the reconstructor. *)
Lemma recon_job_started j w cmd out rest (Q : res dict -> world -> Prop) :
  runs (new_events w (snd (recon_job file_ os_run j w))) = (cmd, out) :: rest ->
  (forall t0 en dr br qu,
     os_run (colmap_cmd j) t0 = out ->
     wp (call (try_except
                 (recon_try file_ os_run (input_dir j) (output_dir j) (meta_path j))
                 (recon_except (meta_path j))))
       Q
       {| w_fs := t0;
          w_meta := <["status" := VStr "running"]> (initial_meta (w_fs w) (meta_path j));
          w_entropy := en; w_drawn := dr; w_broker_up := br; w_queue := qu;
          w_trace :=
            w_trace w ++ [EvWrite (meta_path j)
                            (<["status" := VStr "running"]>
                               (initial_meta (w_fs w) (meta_path j)))] |}) ->
  Q (fst (recon_job file_ os_run j w)) (snd (recon_job file_ os_run j w)).
Proof.
  intros Hruns H.
  destruct (recon_job_facts file_ os_run j w) as (l & Htr & F).
  rewrite (new_events_app _ _ _ Htr) in Hruns.
  destruct (rf_first_run _ _ _ _ _ _ _ _ _ F _ _ _ Hruns) as (H0 & _ & Hres).
  pose proof (recon_setup_facts file_ os_run j w (Ok tt) out) as Hs.
  cbv zeta in Hs. unfold wp in Hs.
  destruct (recon_setup file_ j w) as [r0 w0] eqn:Es. cbn [fst snd] in *. subst r0.
  destruct Hs as [Ht Hm]. destruct w0 as [t0 mm en dr br qu tr].
  cbn [w_trace w_meta w_fs] in *. subst mm tr.
  assert (recon_job file_ os_run j w
          = call (try_except
                    (recon_try file_ os_run (input_dir j) (output_dir j) (meta_path j))
                    (recon_except (meta_path j)))
              {| w_fs := t0;
                 w_meta := <["status" := VStr "running"]>
                             (initial_meta (w_fs w) (meta_path j));
                 w_entropy := en; w_drawn := dr; w_broker_up := br; w_queue := qu;
                 w_trace :=
                   w_trace w ++ [EvWrite (meta_path j)
                                   (<["status" := VStr "running"]>
                                      (initial_meta (w_fs w) (meta_path j)))] |}) as ->.
  { unfold recon_job, _job_paths. cbv zeta beta iota. unfold call, bind at 1.
    by rewrite Es. }
  by apply H.
Qed.

(** The body [get_job] returns for a job whose document can be read. *)
Lemma get_job_payload j w m :
  FS.read_file (w_fs w) (meta_path j) = FS.Done (Doc m) ->
  fst (get_job file_ j w)
  = Ok {| js_job_id := j;
          js_status := default (VStr "unknown") (m !! "status");
          js_input_count := default (VInt 0) (m !! "input_count");
          js_files := default (VList []) (m !! "files");
          js_error := m !! "error";
          js_warning := m !! "warning";
          js_warning_3dgs := m !! "warning_3dgs";
          js_hint := m !! "hint";
          js_points_ply_exists :=
            found (first_existing (w_fs w) (ply_candidates (output_dir j)));
          js_points_ply_url :=
            if found (first_existing (w_fs w) (ply_candidates (output_dir j)))
            then Some ("/api/jobs/" +:+ j +:+ "/points.ply") else None;
          js_splat_exists :=
            found (first_existing (w_fs w) (splat_candidates (output_dir j)));
          js_splat_url :=
            if found (first_existing (w_fs w) (splat_candidates (output_dir j)))
            then Some ("/api/jobs/" +:+ j +:+ "/scene.splat") else None |}.
Proof.
  intros H. unfold get_job, _job_paths. cbv zeta beta iota.
  rewrite (bind_ok _ _ w true w).
  2:{ unfold Lib.exists_, inspect. by rewrite (FrameFacts.read_file_exists _ _ _ H). }
  cbn [negb]. rewrite (bind_ok _ _ _ _ _ (read_meta_ok _ _ _ H)).
  rewrite (bind_ok (_best_ply_path _) _ w _ w eq_refl).
  rewrite (bind_ok (_best_splat_path _) _ w _ w eq_refl).
  rewrite !(bind_ok _ _ _ _ _ (and_exists_found (ply_candidates _) w)).
  rewrite !(bind_ok _ _ _ _ _ (and_exists_found (splat_candidates _) w)).
  done.
Qed.

End Scenarios.

(** *** The output directory under the writes of the worker task *)

Module OutputFacts.
Import FS FSFacts PathFacts FrameFacts.

Lemma copyfile_ok t src q c x :
  read_file t src = Done x -> resolve src <> resolve (q ++ [c]) -> c <> ".." ->
  is_dir t q = true -> is_dir t (q ++ [c]) = false ->
  exists t', copyfile t src (q ++ [c]) = Done t' /\ write_file t (q ++ [c]) x = Done t'.
Proof.
  intros Hr Hne Hc Hq Hf. destruct (write_file_ok t q c x Hc Hq Hf) as [t' Ht'].
  exists t'. split; [|done]. unfold copyfile. destruct (decide _); [done|]. by rewrite Hr.
Qed.

Lemma path_exists_grandparent t p a b c :
  path_exists t (p ++ [a; b; c]) = true -> is_dir t p = true.
Proof.
  change (p ++ [a; b; c]) with (p ++ [a] ++ [b] ++ [c]). rewrite !app_assoc.
  intros H. apply path_exists_parent, is_dir_exists in H.
  apply path_exists_parent, is_dir_exists in H. by apply path_exists_parent in H.
Qed.

(** The artifact the resolver finds lies in the output directory, which
    is then a directory; when it is not the unified file, no unified file
    exists. *)
Lemma artifact_found t out ply :
  first_existing t (ply_candidates out) = Some ply ->
  is_dir t out = true /\ path_exists t ply = true
  /\ (ply <> out ++ ["points.ply"] -> path_exists t (out ++ ["points.ply"]) = false).
Proof.
  rewrite ply_candidates_eq. intros H.
  pose proof (first_existing_Some _ _ _ H) as [Hin Hex].
  split; [|split; [done|]].
  - repeat (apply elem_of_cons in Hin as [->|Hin]);
      [by eapply path_exists_parent..|by eapply path_exists_grandparent|].
    by apply elem_of_nil in Hin.
  - intros Hne. simpl in H. destruct (path_exists t (out ++ ["points.ply"])); [|done].
    congruence.
Qed.

Lemma not_exists_not_dir t p : path_exists t p = false -> is_dir t p = false.
Proof.
  intros H. destruct (is_dir t p) eqn:E; [|done]. apply is_dir_exists in E. congruence.
Qed.

(** Writing a file whose name is not one of theirs leaves the candidates
    of both resolvers as they were. *)
Lemma write_keeps_ply t p c x t' out :
  write_file t (p ++ [c]) x = Done t' -> c <> ".." ->
  c <> "points.ply" -> c <> "points_dense.ply" -> c <> "points_sparse.ply" ->
  first_existing t' (ply_candidates out) = first_existing t (ply_candidates out).
Proof.
  intros H Hc H1 H2 H3. rewrite ply_candidates_eq. apply first_existing_ext.
  change (out ++ ["dense"; "0"; "points.ply"]) with (out ++ ["dense"; "0"] ++ ["points.ply"]).
  rewrite app_assoc.
  repeat constructor; apply path_exists_kind;
    apply (write_file_frame_name _ _ _ _ _ _ _ H); done.
Qed.

Lemma write_keeps_splat t p c x t' out :
  write_file t (p ++ [c]) x = Done t' -> c <> ".." ->
  c <> "scene.splat" -> c <> "gaussians.splat" ->
  first_existing t' (splat_candidates out) = first_existing t (splat_candidates out).
Proof.
  intros H Hc H1 H2. rewrite splat_candidates_eq. apply first_existing_ext.
  change (out ++ ["3dgs"; "scene.splat"]) with (out ++ ["3dgs"] ++ ["scene.splat"]).
  change (out ++ ["3dgs"; "gaussians.splat"]) with (out ++ ["3dgs"] ++ ["gaussians.splat"]).
  rewrite !app_assoc.
  repeat constructor; apply path_exists_kind;
    apply (write_file_frame_name _ _ _ _ _ _ _ H); done.
Qed.

(** Once the unified file exists, the point-cloud resolver finds it. *)
Lemma unified_found t out :
  path_exists t (out ++ ["points.ply"]) = true ->
  first_existing t (ply_candidates out) = Some (out ++ ["points.ply"]).
Proof. intros H. rewrite ply_candidates_eq. simpl. by rewrite H. Qed.

Lemma is_file_read_some t p : is_file t p = true -> exists x, read_file t p = Done x.
Proof. apply is_file_read. Qed.

End OutputFacts.

(** *** Runs whose course is known *)

(** One step that does not branch. *)
Ltac wp_lin :=
  lazymatch goal with
  | |- wp (bind _ _) _ _ => apply wp_bind
  | |- wp (ret _) _ _ => apply wp_ret
  | |- wp (raise _) _ _ => apply wp_raise
  | |- wp (return_ _) _ _ => apply wp_return
  | |- wp (inspect _) _ _ => apply wp_inspect
  | |- wp (meta_set _ _) _ _ => apply wp_meta_set
  | |- wp (meta_bind _) _ _ => apply wp_meta_bind
  | |- wp meta_obj _ _ => apply wp_meta_obj
  | |- wp (try_except _ _) _ _ => apply wp_try
  | |- wp (call _) _ _ => apply wp_call
  | |- wp (Lib.exists_ _) _ _ => unfold Lib.exists_
  | |- wp (Lib.copyfile _ _) _ _ => unfold Lib.copyfile
  | |- wp (_best_ply_path _) _ _ => unfold _best_ply_path
  | |- wp (_best_splat_path _) _ _ => unfold _best_splat_path
  | |- wp (and_exists (Some _)) _ _ => unfold and_exists
  | |- wp (and_exists None) _ _ => unfold and_exists
  | |- wp (recon_try _ _ _ _ _) _ _ => unfold recon_try
  | |- wp (recon_except _ _) _ _ => unfold recon_except
  end; wp_norm.

Ltac wp_norm_in H :=
  cbv beta iota in H;
  cbn [fst snd w_fs w_meta w_trace w_entropy w_drawn w_broker_up w_queue
       set_fs set_meta log_event set_drawn set_queue negb] in H.

(** Steps in a row, rewriting with what is known by [k] in between. *)
Ltac wp_run k := repeat first [ progress k | wp_lin ].

Lemma is_str_refl s : is_str (Some (VStr s)) s = true.
Proof. apply String.eqb_refl. Qed.

Lemma append_nonempty c s x : String c s +:+ x <> "".
Proof. done. Qed.

Lemma writes_app l1 l2 : writes (l1 ++ l2) = writes l1 ++ writes l2.
Proof. unfold writes. apply bind_app. Qed.

Lemma runs_app l1 l2 : runs (l1 ++ l2) = runs l1 ++ runs l2.
Proof. unfold runs. apply bind_app. Qed.

Lemma statuses_app l1 l2 : statuses (l1 ++ l2) = statuses l1 ++ statuses l2.
Proof. unfold statuses. by rewrite writes_app, fmap_app. Qed.

(** The events a run added, when its final trace is spelt out. *)
Ltac trace_norm :=
  unfold new_events; wp_norm; rewrite <- ?app_assoc, drop_app_length.

Section ColmapScenarios.
Import FS FSFacts PathFacts FrameFacts OutputFacts.
Variable file_ : path.
Variable os_run : list string -> node -> proc.


End ColmapScenarios.

(** *** Runs that launched the trainer *)

(** [_write_meta] writes, or raises; it can only raise when the parent is
    not a directory or the target is one. *)
Lemma wp_write_meta_split q c m (Q : res unit -> world -> Prop) w :
  c <> ".." ->
  (forall t0 t', FS.mkdir_p (w_fs w) q = FS.Done t0 ->
     FS.write_file t0 (q ++ [c]) (Doc m) = FS.Done t' ->
     Q (Ok tt) (log_event (EvWrite (q ++ [c]) m) (set_fs t' w))) ->
  (forall e, FS.is_dir (w_fs w) q = false \/ FS.is_dir (w_fs w) (q ++ [c]) = true ->
     Q (Raise e) w) ->
  (forall e t', FS.is_dir (w_fs w) q = false \/ FS.is_dir (w_fs w) (q ++ [c]) = true ->
     Q (Raise e) (set_fs t' w)) ->
  wp (_write_meta (q ++ [c]) m) Q w.
Proof.
  intros Hc HQ HE1 HE2. unfold _write_meta. rewrite PathFacts.parent_snoc.
  repeat wp_step.
  - by eapply HQ.
  - apply HE2. destruct (FS.is_dir (w_fs w) q) eqn:Eq; [|by left].
    destruct (FS.is_dir (w_fs w) (q ++ [c])) eqn:Ef; [by right|]. exfalso.
    rewrite (FSFacts.mkdir_p_noop _ _ Eq) in *. simplify_eq.
    destruct (FSFacts.write_file_ok (w_fs w) q c (Lib.json_dumps m) Hc Eq Ef) as [t2 Ht2].
    congruence.
  - apply HE1. left. by eapply FSFacts.mkdir_p_fail.
Qed.

(** One step of a run followed branch by branch; the two tests before
    the unified copy are joined under [P]. *)
Ltac scen_step P :=
  lazymatch goal with
  | |- wp (bind (if negb (_ =? _)%Z then _ else _) _) _ _ =>
      apply wp_bind; apply (wp_join_fs P); [wp_norm | intros ? ? ? ?; wp_norm]
  | |- wp (bind (if decide _ then _ else _) _) _ _ =>
      apply wp_bind; apply (wp_join_fs P); [wp_norm | intros ? ? ? ?; wp_norm]
  | |- wp (_write_meta _ _) _ _ =>
      rewrite ?meta_path_snoc;
      apply wp_write_meta_split; wp_norm;
      [done | intros ? ? ? ? | intros ? ? | intros ? ? ?]
  | |- wp (subprocess_run _ _) _ _ =>
      first [ eapply wp_subprocess_ok; [eassumption|]; wp_norm | wp_step ]
  | |- wp _ _ _ => wp_step
  end.

Ltac scen_go P := repeat scen_step P.

(** What the trace hypothesis of a scenario says at the end of one
    branch. *)
Ltac trace_in H :=
  unfold new_events in H; wp_norm_in H;
  rewrite <- ?app_assoc, drop_app_length in H; simpl in H; simplify_eq.

Section TrainerScenarios.
Import FS FSFacts PathFacts FrameFacts OutputFacts.
Variable file_ : path.
Variable os_run : list string -> node -> proc.


(** A run in which the trainer exited with 0 and left a splat file
    records [running], [running_3dgs] and [done_3dgs], in this order. *)
Lemma trained_statuses (job_id : string) (w : world)
    (pA pB : CompletedProcess) (t1 t2 : node) :
  let job_dir := DATA_DIR file_ // job_id in
  let input_dir := job_dir // "input" in
  let output_dir := job_dir // "output" in
  let meta_path := job_dir // "meta.json" in
  let run := recon_job file_ os_run job_id w in
  let ev := new_events w (snd run) in
  runs ev = [(["bash"; str (RUN_COLMAP_SH file_); str input_dir; str output_dir],
              Exited pA t1);
             (["bash"; str (RUN_3DGS_SH file_); str input_dir; str output_dir],
              Exited pB t2)] ->
  returncode pB = 0%Z ->
  first_existing t2 (splat_candidates output_dir) <> None ->
  is_dir t2 job_dir = true ->
  is_dir t2 meta_path = false ->
  exists m,
    fst run = Ok m /\ last (writes ev) = Some m
    /\ m !! "status" = Some (VStr "done_3dgs")
    /\ statuses ev = [Some (VStr "running"); Some (VStr "running_3dgs");
                      Some (VStr "done_3dgs")].
Proof.
  cbv zeta. intros Hruns Hrc Hsplat Hjd Hmp.
  change (DATA_DIR file_ // job_id // "meta.json")
    with ((DATA_DIR file_ // job_id) ++ ["meta.json"]) in Hmp.
  generalize Hruns.
  refine (recon_job_started file_ os_run job_id w _ _ _
            (fun r w' =>
               runs (new_events w w') = _ ->
               exists m,
                 r = Ok m /\ last (writes (new_events w w')) = Some m
                 /\ m !! "status" = Some (VStr "done_3dgs")
                 /\ statuses (new_events w w') = _) Hruns _).
  intros t0 en dr br qu Hres.
  scen_go (fun (t : node) (m : dict) => True).
  all: try (eexists _, _; split; [reflexivity|done]).
  all: intros Hr; trace_in Hr.
  all: try match goal with
           | H : is_dir _ _ = false \/ _ |- _ => destruct H; congruence
           end.
  all: try congruence.
  all: try match goal with
           | E : (returncode _ =? 0)%Z = false |- _ => rewrite Hrc in E; discriminate E
           end.
  all: try match goal with
           | E : first_existing _ _ = Some ?s, E' : path_exists _ ?s = false |- _ =>
               apply first_existing_Some in E as [_ E]; congruence
           end.
  eexists. split; [reflexivity|]. split; [trace_norm; reflexivity|].
  split; [by dict_simpl|]. trace_norm. unfold statuses. simpl. by dict_simpl.
Qed.

End TrainerScenarios.

(** *** The life of a job: creation, then the worker task *)

Lemma worker_statuses_monotone l :
  l ∈ worker_statuses ->
  monotone ([Some (VStr "queued"); Some (VStr "queued")] ++ l).
Proof.
  unfold worker_statuses. intros H.
  repeat (apply elem_of_cons in H as [->|H]); [..|by apply elem_of_nil in H];
    simpl; repeat split; try lia;
    first [ by left
          | right; eexists _, _; split; [reflexivity|]; split; [reflexivity|];
            constructor ].
Qed.

Section Lifecycle.
Variable file_ : path.
Variable os_run : list string -> node -> proc.


End Lifecycle.

(** *** The unified point cloud *)

Module UnifyFacts.
Import FS FSFacts PathFacts FrameFacts OutputFacts.

(** A candidate of the point-cloud resolver ends in a file name that is
    not [meta.json]. *)
Lemma ply_candidate_form out ply :
  ply ∈ ply_candidates out ->
  exists p' c', ply = p' ++ [c'] /\ c' <> ".." /\ c' <> "meta.json".
Proof.
  rewrite ply_candidates_eq. intros H.
  repeat (apply elem_of_cons in H as [->|H]); [..|by apply elem_of_nil in H].
  - by exists out, "points.ply".
  - by exists out, "points_dense.ply".
  - by exists out, "points_sparse.ply".
  - exists (out ++ ["dense"; "0"]), "points.ply". by rewrite <- app_assoc.
Qed.

(** Only the unified file resolves to the unified file. *)
Lemma ply_candidate_unified out ply :
  ply ∈ ply_candidates out ->
  resolve ply = resolve (out ++ ["points.ply"]) -> ply = out ++ ["points.ply"].
Proof.
  rewrite ply_candidates_eq. intros H.
  repeat (apply elem_of_cons in H as [->|H]); [..|by apply elem_of_nil in H]; [done|..];
    rewrite !resolve_app_plain by (repeat constructor; done);
    intros E; apply app_inv_head in E; discriminate E.
Qed.

Lemma intact_write t jd out ply x c t' :
  ply ∈ ply_candidates out ->
  intact t jd out ply x ->
  write_file t (jd ++ ["meta.json"]) c = Done t' ->
  intact t' jd out ply x.
Proof.
  intros Hin (Hjd & Hmp & Hply & Huni) Hw.
  destruct (ply_candidate_form _ _ Hin) as (p' & c' & -> & Hc1 & Hc2).
  split; [by rewrite (write_file_is_dir _ _ _ _ _ Hw)|].
  split; [by rewrite (write_file_is_dir _ _ _ _ _ Hw)|].
  split.
  - rewrite <- Hply. apply read_file_kind.
    by apply (write_file_frame_name _ _ _ _ _ _ _ Hw).
  - rewrite <- Huni. apply read_file_kind.
    by apply (write_file_frame_name _ _ _ _ _ _ _ Hw).
Qed.

(** After the copy both files hold the artifact's content. *)
Lemma intact_copy t jd out ply x t' :
  is_dir t jd = true -> is_dir t (jd ++ ["meta.json"]) = false ->
  read_file t ply = Done x ->
  copyfile t ply (out ++ ["points.ply"]) = Done t' ->
  intact t' jd out ply x.
Proof.
  intros Hjd Hmp Hply Hc. unfold copyfile in Hc.
  destruct (decide _); [done|]. rewrite Hply in Hc.
  split; [by rewrite (write_file_is_dir _ _ _ _ _ Hc)|].
  split; [by rewrite (write_file_is_dir _ _ _ _ _ Hc)|].
  split; [|by eapply write_file_read].
  apply read_file_stat. rewrite (write_file_stat _ _ _ _ _ Hc).
  destruct (decide _); [done|]. by apply read_file_stat.
Qed.

Lemma intact_nocopy t jd out ply x :
  ply ∈ ply_candidates out ->
  ~ resolve ply <> resolve (out // "points.ply") ->
  is_dir t jd = true -> is_dir t (jd ++ ["meta.json"]) = false ->
  read_file t ply = Done x ->
  intact t jd out ply x.
Proof.
  intros Hin Hn Hjd Hmp Hx.
  assert (ply = out ++ ["points.ply"]) as Heq.
  { apply ply_candidate_unified; [done|].
    by destruct (decide (resolve ply = resolve (out ++ ["points.ply"]))). }
  repeat split; congruence.
Qed.

Lemma copy_cannot_fail t out ply x e :
  first_existing t (ply_candidates out) = Some ply ->
  read_file t ply = Done x ->
  resolve ply <> resolve (out ++ ["points.ply"]) ->
  copyfile t ply (out ++ ["points.ply"]) = Fail e -> False.
Proof.
  intros Hply Hx Hne Hc.
  destruct (artifact_found _ _ _ Hply) as (Hout & _ & Hno).
  destruct (copyfile_ok t ply out "points.ply" x Hx Hne ltac:(done) Hout) as (t' & Ht' & _).
  - apply not_exists_not_dir, Hno. intros ->. by apply Hne.
  - congruence.
Qed.

End UnifyFacts.

Lemma wp_write_meta_intact jd out ply x m (Q : res unit -> world -> Prop) w :
  intact (w_fs w) jd out ply x ->
  ply ∈ ply_candidates out ->
  (forall t', intact t' jd out ply x ->
     Q (Ok tt) (log_event (EvWrite (jd ++ ["meta.json"]) m) (set_fs t' w))) ->
  wp (_write_meta (jd ++ ["meta.json"]) m) Q w.
Proof.
  intros Hi Hin HQ. pose proof Hi as (Hjd & Hmp & _).
  apply wp_write_meta_ok; [done..|]. intros t' Hw. apply HQ.
  by eapply UnifyFacts.intact_write.
Qed.

(** One step of a run in which the artifact is known: the test on the
    exit code is joined under [P0], the copy under [P]; a write of the
    document goes through when the files are known to be intact. *)
Ltac unify_step P0 P :=
  lazymatch goal with
  | |- wp (bind (if negb (_ =? _)%Z then _ else _) _) _ _ =>
      apply wp_bind; apply (wp_join_fs P0); [wp_norm | intros ? ? ? ?; wp_norm]
  | |- wp (bind (if decide _ then _ else _) _) _ _ =>
      apply wp_bind; apply (wp_join_fs P); [wp_norm | intros ? ? ? ?; wp_norm]
  | |- wp (_write_meta _ _) _ _ =>
      rewrite ?meta_path_snoc;
      first [ eapply wp_write_meta_intact; [eassumption|eassumption|intros ? ?]; wp_norm
            | apply wp_write_meta_split; wp_norm;
              [done | intros ? ? ? ? | intros ? ? | intros ? ? ?] ]
  | |- wp (subprocess_run _ _) _ _ =>
      first [ eapply wp_subprocess_ok; [eassumption|]; wp_norm | wp_step ]
  | |- wp _ _ _ => wp_step
  end.

Section Unify.
Import FS FSFacts PathFacts FrameFacts OutputFacts UnifyFacts.
Variable file_ : path.
Variable os_run : list string -> node -> proc.


End Unify.

(** ** The statements at work on the example worlds *)

(** A conjunction of closed equations, each settled by evaluation. *)
Ltac by_evaluation :=
  repeat match goal with |- _ /\ _ => split end; vm_compute; reflexivity.








Lemma only_run_inv (c : list string) (p0 : CompletedProcess) (t0 : node)
    (P : node -> Prop) :
  P t0 -> forall p t, [(c, Exited p0 t0)] = [(c, Exited p t)] -> P t.
Proof. intros H p t [= _ <-]. exact H. Qed.



(* ================================================================== *)
(** * Part III: further properties of the module *)
(* ================================================================== *)

(** ** The helpers on strings *)

Module HelperFacts.
Import PathFacts NameFacts.

Lemma contains_char_cons (a c : ascii) s :
  Str.contains (String a "") (String c s)
  = Ascii.eqb a c || Str.contains (String a "") s.
Proof.
  rewrite contains_cons. f_equal. cbn [String.prefix].
  destruct (ascii_dec a c) as [->|Hne].
  - rewrite Ascii.eqb_refl. by destruct s.
  - symmetry. by apply Ascii.eqb_neq.
Qed.

(** Replacing [a] by another character leaves no [a]. *)
Lemma replace_char_absent a b s :
  a <> b -> Str.contains (String a "") (Str.replace_char a b s) = false.
Proof.
  intros Hab. induction s as [|c s IH]; [done|]. simpl Str.replace_char.
  rewrite contains_char_cons, IH, orb_false_r.
  destruct (Ascii.eqb_spec c a) as [->|Hca]; apply Ascii.eqb_neq; congruence.
Qed.

(** Replacing [a] by [b] brings in no [d], when [b] is not [d]. *)
Lemma replace_char_keeps_absent a b d s :
  b <> d -> Str.contains (String d "") s = false ->
  Str.contains (String d "") (Str.replace_char a b s) = false.
Proof.
  intros Hbd. induction s as [|c s IH]; [done|]. simpl Str.replace_char.
  rewrite !contains_char_cons. intros H. apply orb_false_iff in H as [Hc Hs].
  rewrite (IH Hs), orb_false_r.
  destruct (Ascii.eqb c a); [|done]. apply Ascii.eqb_neq. congruence.
Qed.

(** A string without [a] is left alone. *)
Lemma replace_char_id a b s :
  Str.contains (String a "") s = false -> Str.replace_char a b s = s.
Proof.
  induction s as [|c s IH]; [done|]. rewrite contains_char_cons.
  intros H. apply orb_false_iff in H as [Hc Hs]. simpl.
  rewrite Ascii.eqb_sym in Hc. by rewrite Hc, (IH Hs).
Qed.

Lemma substring_length i k s :
  String.length (String.substring i k s) = Nat.min k (String.length s - i).
Proof.
  revert i k. induction s as [|c s IH]; intros [|i] [|k]; simpl;
    rewrite ?IH, ?Nat.sub_0_r; try done; lia.
Qed.

Lemma substring_clip i k s :
  String.length s - i <= k ->
  String.substring i k s = String.substring i (String.length s - i) s.
Proof.
  revert i k. induction s as [|c s IH]; intros i k H.
  { by destruct i, k. }
  destruct i as [|i].
  - destruct k as [|k]; [simpl in H; lia|].
    change (String c (String.substring 0 k s)
            = String c (String.substring 0 (String.length s) s)).
    f_equal. rewrite (IH 0 k) by (simpl in H; lia). by rewrite Nat.sub_0_r.
  - change (String.substring i k s = String.substring i (String.length s - i) s).
    apply IH. simpl in H. lia.
Qed.

End HelperFacts.

Section Helpers.
Import PathFacts NameFacts HelperFacts.

(** X1. [_safe_filename] keeps the length of the name, leaves neither a
    slash nor a backslash in it, changes nothing in a name that has
    neither, and so is idempotent. *)
Theorem safe_filename_clean (s : string) :
  String.length (_safe_filename s) = String.length s
  /\ Str.contains "/" (_safe_filename s) = false
  /\ Str.contains "\" (_safe_filename s) = false
  /\ (Str.contains "/" s = false -> Str.contains "\" s = false -> _safe_filename s = s)
  /\ _safe_filename (_safe_filename s) = _safe_filename s.
Proof.
  assert (Str.contains "/" (_safe_filename s) = false) as H1
    by apply safe_filename_no_slash.
  assert (Str.contains "\" (_safe_filename s) = false) as H2
    by (by apply replace_char_absent).
  assert (forall r, Str.contains "/" r = false -> Str.contains "\" r = false ->
                    _safe_filename r = r) as H3.
  { intros r Hs Hb. unfold _safe_filename. rewrite (replace_char_id "/" _ _ Hs).
    by apply replace_char_id. }
  split; [apply safe_filename_length|]. split; [done|]. split; [done|].
  split; [apply H3|]. by apply H3.
Qed.


End Helpers.

(** ** The metadata store *)

Section MetaStore.
Import FS FSFacts FrameFacts.

Lemma read_meta_blob p w b :
  read_file (w_fs w) p = Done (Blob b) -> _read_meta p w = (Raise JSONDecodeError, w).
Proof.
  unfold _read_meta, bind, Lib.exists_, inspect, Lib.read_text, lift_result,
    Lib.json_loads, path_exists, read_file.
  destruct (stat (w_fs w) p) as [[[b'|m]|es]|] eqn:E; cbn; rewrite ?E; cbn;
    intros; simplify_eq; done.
Qed.

Lemma read_meta_dir p w :
  is_dir (w_fs w) p = true -> _read_meta p w = (Raise (IsADirectoryError (str p)), w).
Proof.
  unfold _read_meta, bind, Lib.exists_, inspect, Lib.read_text, lift_result,
    Lib.json_loads, path_exists, read_file, is_dir.
  destruct (stat (w_fs w) p) as [[[b'|m]|es]|] eqn:E; cbn; rewrite ?E; cbn;
    intros; simplify_eq; done.
Qed.

(** X3. When [_write_meta(p, m)] returns, it has noted one write and
    nothing else, the path exists, and [_read_meta(p)] then yields [m]
    and changes nothing. *)
Theorem write_then_read_meta (p : path) (m : dict) (w : world) :
  fst (_write_meta p m w) = Ok tt ->
  let w' := snd (_write_meta p m w) in
  _read_meta p w' = (Ok m, w')
  /\ path_exists (w_fs w') p = true
  /\ w_trace w' = w_trace w ++ [EvWrite p m]
  /\ w_meta w' = w_meta w.
Proof.
  unfold _write_meta, bind, Lib.mkdir, Lib.write, Lib.log_write, effect, Lib.json_dumps.
  destruct (mkdir_p (w_fs w) (parent p)) as [t0|e] eqn:E0; cbn [fst snd w_fs set_fs]; [|done].
  destruct (write_file t0 p (Doc m)) as [t'|e] eqn:E1; cbn [fst snd w_fs set_fs]; [|done].
  intros _. cbv zeta. pose proof (write_file_read _ _ _ _ E1) as Hr.
  split; [by apply read_meta_ok|]. split; [by eapply read_file_exists|]. done.
Qed.


End MetaStore.

(** ** The read-only routes *)

Section ReadRoutes.
Import FS FSFacts FrameFacts.
Variable file_ : path.

Lemma get_job_world j w : snd (get_job file_ j w) = w.
Proof.
  assert (wp (get_job file_ j) (fun _ w' => w' = w) w) as H; [|exact H].
  unfold get_job, _job_paths. cbv zeta beta iota.
  repeat first [ apply wp_read_meta; [|intros ?] | wp_step ]; reflexivity.
Qed.


Lemma download_points_ply_eq job_id w :
  download_points_ply file_ job_id w
  = (match first_existing (w_fs w) (ply_candidates (DATA_DIR file_ // job_id // "output")) with
     | Some p => Ok {| fr_path := str p; fr_media_type := "application/octet-stream";
                       fr_filename := "points.ply" |}
     | None => Raise (HTTPException 404 "PLY not found (job not done?)")
     end, w).
Proof.
  unfold download_points_ply, _job_paths. cbv zeta beta iota.
  rewrite (bind_ok (_best_ply_path _) _ w _ w eq_refl).
  rewrite (bind_ok _ _ _ _ _ (and_exists_found (ply_candidates _) w)).
  by destruct (first_existing (w_fs w) (ply_candidates _)).
Qed.

Lemma download_splat_eq job_id w :
  download_splat file_ job_id w
  = (match first_existing (w_fs w) (splat_candidates (DATA_DIR file_ // job_id // "output")) with
     | Some p => Ok {| fr_path := str p; fr_media_type := "application/octet-stream";
                       fr_filename := "scene.splat" |}
     | None => Raise (HTTPException 404 "SPLAT not found (3DGS not done?)")
     end, w).
Proof.
  unfold download_splat, _job_paths. cbv zeta beta iota.
  rewrite (bind_ok (_best_splat_path _) _ w _ w eq_refl).
  rewrite (bind_ok _ _ _ _ _ (and_exists_found (splat_candidates _) w)).
  by destruct (first_existing (w_fs w) (splat_candidates _)).
Qed.


End ReadRoutes.

(** ** More on the worker task *)

Lemma wp_eq {A} (c : M A) r w' (Q : res A -> world -> Prop) w :
  c w = (r, w') -> Q r w' -> wp c Q w.
Proof. unfold wp. by intros ->. Qed.

Section WorkerMore.
Import FS FSFacts PathFacts FrameFacts.
Variable file_ : path.
Variable os_run : list string -> node -> proc.

(** X7. A run of the worker task writes the job's document at most
    three times, the first time with status [running]; and the record
    it returns is the last document it wrote. *)
Theorem recon_job_writes (job_id : string) (w : world) :
  let run := recon_job file_ os_run job_id w in
  let ev := new_events w (snd run) in
  length (writes ev) <= 3
  /\ (forall m rest, writes ev = m :: rest -> m !! "status" = Some (VStr "running"))
  /\ (forall m, fst run = Ok m -> last (writes ev) = Some m).
Proof.
  cbv zeta. destruct (recon_job_facts file_ os_run job_id w) as (l & Htr & F).
  rewrite (new_events_app _ _ _ Htr).
  pose proof (rf_statuses _ _ _ _ _ _ _ _ _ F) as Hs. unfold statuses in Hs.
  split; [|split].
  - rewrite <- (length_fmap (fun m : dict => m !! "status")).
    unfold worker_statuses in Hs.
    repeat (apply elem_of_cons in Hs as [->|Hs]); [simpl; lia..|].
    by apply elem_of_nil in Hs.
  - intros m rest Hw. rewrite Hw in Hs. rewrite fmap_cons in Hs.
    unfold worker_statuses in Hs.
    repeat (apply elem_of_cons in Hs as [Hs|Hs]); [congruence..|].
    by apply elem_of_nil in Hs.
  - intros m Hm. by apply (rf_result _ _ _ _ _ _ _ _ _ F).
Qed.

(** X8. When the job directory with its [input] and [output]
    directories and its document are there but the reconstruction
    script is not installed, the worker task launches nothing: it writes
    the document as [running], then as [failed] with the error naming the
    script's path, and returns that record. *)
Theorem missing_colmap_script (job_id : string) (w : world) (m0 : dict) :
  let job_dir := DATA_DIR file_ // job_id in
  let run := recon_job file_ os_run job_id w in
  let ev := new_events w (snd run) in
  is_dir (w_fs w) job_dir = true ->
  is_dir (w_fs w) (job_dir // "input") = true ->
  is_dir (w_fs w) (job_dir // "output") = true ->
  read_file (w_fs w) (job_dir // "meta.json") = Done (Doc m0) ->
  path_exists (w_fs w) (RUN_COLMAP_SH file_) = false ->
  fst run
  = Ok (<["error" := VStr ("run_colmap.sh not found: " +:+ str (RUN_COLMAP_SH file_))]>
          (<["status" := VStr "failed"]> (<["status" := VStr "running"]> m0)))
  /\ runs ev = []
  /\ statuses ev = [Some (VStr "running"); Some (VStr "failed")]
  /\ read_file (w_fs (snd run)) (job_dir // "meta.json")
     = Done (Doc (<["error" := VStr ("run_colmap.sh not found: "
                                     +:+ str (RUN_COLMAP_SH file_))]>
                    (<["status" := VStr "failed"]> (<["status" := VStr "running"]> m0)))).
Proof.
  cbv zeta. intros Hjd Hin Hout Hm0 Hno.
  rewrite (meta_path_snoc (DATA_DIR file_ // job_id)) in *.
  assert (is_dir (w_fs w) ((DATA_DIR file_ // job_id) ++ ["meta.json"]) = false) as Hmp.
  { unfold is_dir. unfold read_file in Hm0.
    by destruct (stat (w_fs w) ((DATA_DIR file_ // job_id) ++ ["meta.json"])) as [[|]|]. }
  assert (wp (recon_job file_ os_run job_id)
            (fun r w' =>
               r = Ok (<["error" := VStr ("run_colmap.sh not found: "
                                          +:+ str (RUN_COLMAP_SH file_))]>
                         (<["status" := VStr "failed"]>
                            (<["status" := VStr "running"]> m0)))
               /\ runs (new_events w w') = []
               /\ statuses (new_events w w')
                  = [Some (VStr "running"); Some (VStr "failed")]
               /\ read_file (w_fs w') ((DATA_DIR file_ // job_id) ++ ["meta.json"])
                  = Done (Doc (<["error" := VStr ("run_colmap.sh not found: "
                                                  +:+ str (RUN_COLMAP_SH file_))]>
                                 (<["status" := VStr "failed"]>
                                    (<["status" := VStr "running"]> m0))))) w) as H;
    [|exact H].
  unfold recon_job, recon_setup, _job_paths. cbv zeta beta iota.
  rewrite !(meta_path_snoc (DATA_DIR file_ // job_id)).
  wp_run ltac:(rewrite ?(is_dir_exists _ _ Hjd)).
  eapply wp_eq; [by apply read_meta_ok|]. wp_norm.
  wp_run idtac.
  apply wp_write_meta_ok; [done..|]. intros t1 Ht1. wp_norm.
  assert (forall r, is_dir t1 r = is_dir (w_fs w) r) as Hd1
    by (intros r; by eapply write_file_is_dir).
  wp_run idtac. unfold Lib.mkdir.
  eapply wp_effect_ok; [apply mkdir_p_noop; by rewrite Hd1|]. wp_norm.
  wp_run idtac. unfold Lib.mkdir.
  eapply wp_effect_ok; [apply mkdir_p_noop; by rewrite Hd1|]. wp_norm.
  assert (path_exists t1 (RUN_COLMAP_SH file_) = false) as Hno1.
  { rewrite <- Hno. apply path_exists_kind.
    by apply (write_file_frame_name _ _ _ _ _ _ _ Ht1). }
  wp_run ltac:(rewrite ?Hno1). wp_norm. cbv beta iota. wp_run idtac.
  apply wp_write_meta_ok; [done|by rewrite Hd1..|]. intros t2 Ht2. wp_norm.
  wp_run idtac.
  split; [done|]. split; [by trace_norm|]. split.
  - trace_norm. unfold statuses. simpl. by dict_simpl.
  - by eapply write_file_read.
Qed.

End WorkerMore.

Lemma write_then_read_meta_witness :
  FS.path_exists
    (w_fs (snd (_write_meta (Demo.jobs0 ++ ["j"; "meta.json"]) ∅ (Demo.world0 Demo.fs0))))
    (Demo.jobs0 ++ ["j"; "meta.json"]) = true.
Proof.
  destruct (write_then_read_meta (Demo.jobs0 ++ ["j"; "meta.json"]) ∅
              (Demo.world0 Demo.fs0)) as (_ & H & _); [vm_compute; reflexivity|].
  exact H.
Defined.

(** ** More on job creation *)

Module RelFacts.
Import FS FSFacts PathFacts FrameFacts.

(** Where a path that continues [p] by components other than [..]
    leads. *)
Lemma locate_plain t p l x :
  Forall (fun c => c <> "..") l ->
  locate t (p ++ l) = Some x -> exists q, locate t p = Some q /\ x = q ++ l.
Proof.
  revert x. induction l as [|c l IH] using rev_ind; intros x Hl H.
  { rewrite app_nil_r in *. exists x. by rewrite app_nil_r. }
  apply Forall_app in Hl as [Hl Hc]. inversion Hc as [|? ? Hc' _]; subst.
  rewrite app_assoc, locate_snoc in H.
  destruct (locate t (p ++ l)) as [y|] eqn:E; [|done]. simpl in H.
  destruct (dirb (lookup_node t y)); [|done].
  rewrite resolve_step_plain in H by done. inversion H; subst.
  destruct (IH y Hl eq_refl) as (q & Hq & ->).
  exists q. by rewrite <- app_assoc.
Qed.

(** Writing [p/l1] leaves what is at [p/l2] alone, for different [l1]
    and [l2] without [..]. *)
Lemma write_file_frame_rel t p l1 l2 x t' :
  write_file t (p ++ l1) x = Done t' ->
  Forall (fun c => c <> "..") l1 -> Forall (fun c => c <> "..") l2 -> l1 <> l2 ->
  kind (stat t' (p ++ l2)) = kind (stat t (p ++ l2)).
Proof.
  intros H H1 H2 Hne. rewrite (write_file_stat _ _ _ _ _ H).
  destruct (decide _) as [E|]; [exfalso|done].
  destruct (write_file_inv _ _ _ _ H) as (Q & HQ & _). rewrite HQ in E.
  destruct (locate_plain _ _ _ _ H1 HQ) as (q1 & Hq1 & ->).
  destruct (locate_plain _ _ _ _ H2 E) as (q2 & Hq2 & E2).
  rewrite Hq1 in Hq2. inversion Hq2; subst q2. by apply app_inv_head in E2.
Qed.

Lemma write_file_keeps_files t p x t' r :
  write_file t p x = Done t' -> is_file t r = true -> is_file t' r = true.
Proof.
  intros H Hr. apply is_file_read in Hr as [y Hy]. apply is_file_read.
  apply read_file_stat in Hy. destruct (decide (locate t r = locate t p)) as [E|E].
  - exists x. apply read_file_stat. rewrite (write_file_stat _ _ _ _ _ H).
    by destruct (decide _).
  - exists y. apply read_file_stat. rewrite (write_file_stat _ _ _ _ _ H).
    by destruct (decide _).
Qed.

Lemma written_is_file t p x t' : write_file t p x = Done t' -> is_file t' p = true.
Proof. intros H. apply is_file_read. exists x. by eapply write_file_read. Qed.

End RelFacts.

Section Stored.
Import FS FSFacts MkdirFacts PathFacts NameFacts FrameFacts RelFacts.

Variable job_dir : path.

(** The loop stores every upload as a regular file of the input
    directory under a plain name, keeps the files that were there, and
    leaves the rest of the job directory alone. *)
Lemma save_files_stored files : forall saved w,
  flat_dir (w_fs w) (job_dir ++ ["input"]) ->
  exists names w',
    save_files (job_dir ++ ["input"]) files saved w = (Ok (saved ++ names), w')
    /\ Forall (fun n => plain_name n = true
                        /\ is_file (w_fs w') ((job_dir ++ ["input"]) ++ [n]) = true) names
    /\ (forall r, is_file (w_fs w) r = true -> is_file (w_fs w') r = true)
    /\ (forall l, Forall (fun c => c <> "..") l -> hd "input" l <> "input" ->
          kind (stat (w_fs w') (job_dir ++ l)) = kind (stat (w_fs w) (job_dir ++ l))).
Proof.
  induction files as [|f rest IH]; intros saved w Hflat.
  { exists [], w. rewrite app_nil_r. by repeat split. }
  destruct (save_one (job_dir ++ ["input"]) ltac:(by rewrite name_snoc) f rest saved w Hflat)
    as (n' & t' & w1 & Hp & Ht' & Hfs & _ & Heq & _).
  destruct (IH (saved ++ [n']) (set_fs t' w1)) as (names & w' & Hrun & Hall & Hkeep & Hfr).
  { apply (flat_dir_ext (w_fs w)); [|done]. intros r. by eapply write_file_is_dir. }
  cbn [w_fs set_fs] in *.
  exists (n' :: names), w'. rewrite Heq, Hrun, <- app_assoc.
  split; [done|]. split; [|split].
  - constructor; [|done]. split; [done|]. apply Hkeep. by eapply written_is_file.
  - intros r Hr. apply Hkeep. by eapply write_file_keeps_files.
  - intros l Hl Hhd. rewrite (Hfr l Hl Hhd).
    rewrite <- app_assoc in Ht'.
    apply (write_file_frame_rel _ _ _ _ _ _ Ht'); [|done|].
    + repeat constructor; [done|]. by apply plain_name_spec in Hp as (_ & _ & Hp & _).
    + intros <-. by apply Hhd.
Qed.

End Stored.

Section CreateJobMore.
Import FS FSFacts MkdirFacts PathFacts NameFacts FrameFacts RelFacts.
Variable file_ : path.

Lemma job_input_flat t jd :
  stat t jd = Some (Dir (<["output" := Dir ∅]> {["input" := Dir ∅]})) ->
  flat_dir t (jd ++ ["input"]).
Proof.
  intros Hs. assert (stat t (jd ++ ["input"]) = Some (Dir ∅)) as Hin.
  { rewrite stat_snoc, Hs by done. done. }
  split; [by eapply is_dir_of_stat|]. intros k Hk. unfold is_dir.
  rewrite stat_snoc, Hin by done. by rewrite lookup_empty.
Qed.

(** Nothing is in the output directory of a job just created. *)
Lemma job_output_empty t jd l :
  stat t jd = Some (Dir (<["output" := Dir ∅]> {["input" := Dir ∅]})) ->
  l <> [] -> Forall (fun c => c <> "..") l ->
  stat t (jd ++ "output" :: l) = None.
Proof.
  intros Hs Hl Hdd. assert (stat t (jd ++ ["output"]) = Some (Dir ∅)) as Hout.
  { rewrite stat_snoc, Hs by done. done. }
  destruct l as [|c l]; [done|]. inversion Hdd; subst.
  assert (stat t ((jd ++ ["output"]) ++ [c]) = None) as Hc.
  { rewrite stat_snoc, Hout by done. by rewrite lookup_empty. }
  change (jd ++ "output" :: c :: l) with (jd ++ ["output"] ++ [c] ++ l).
  rewrite !app_assoc. destruct l as [|c' l]; [by rewrite app_nil_r|].
  by apply stat_app_none.
Qed.

Lemma resolvers_find_nothing t jd :
  (forall l, l <> [] -> Forall (fun c => c <> "..") l -> stat t (jd ++ "output" :: l) = None) ->
  first_existing t (ply_candidates (jd ++ ["output"])) = None
  /\ first_existing t (splat_candidates (jd ++ ["output"])) = None.
Proof.
  intros H. rewrite ply_candidates_eq, splat_candidates_eq.
  assert (forall l, l <> [] -> Forall (fun c => c <> "..") l ->
            path_exists t ((jd ++ ["output"]) ++ l) = false) as H'.
  { intros l Hl Hdd. rewrite <- app_assoc. unfold path_exists.
    change (["output"] ++ l) with ("output" :: l). by rewrite H. }
  split; apply first_existing_None;
    repeat (apply Forall_cons; split; [apply H'; [done|repeat constructor; done]|]);
    done.
Qed.

(** A successful call of [create_job], seen from the job directory. *)
Lemma create_job_leaves files w :
  2 <= length files ->
  is_dir (w_fs w) (DATA_DIR file_) = true ->
  path_exists (w_fs w) (DATA_DIR file_ // next_job_id w) = false ->
  w_broker_up w = true ->
  let jd := DATA_DIR file_ ++ [next_job_id w] in
  let run := create_job file_ files w in
  exists names rq,
    fst run = Ok {| jc_job_id := next_job_id w; jc_status := "queued";
                    jc_input_count := length files |}
    /\ length names = length files
    /\ w_meta (snd run) = <["rq_id" := VStr rq]> (queued_doc (next_job_id w) names)
    /\ read_file (w_fs (snd run)) (jd ++ ["meta.json"])
       = Done (Doc (<["rq_id" := VStr rq]> (queued_doc (next_job_id w) names)))
    /\ Forall (fun n => plain_name n = true
                        /\ is_file (w_fs (snd run)) ((jd ++ ["input"]) ++ [n]) = true) names
    /\ (forall l, l <> [] -> Forall (fun c => c <> "..") l ->
          stat (w_fs (snd run)) (jd ++ "output" :: l) = None).
Proof.
  intros Hlen Hd Hfresh Hb jd run. subst run.
  rewrite (joinpath_plain _ _ (next_job_id_plain w)) in Hfresh.
  destruct (create_job_run file_ files w Hlen Hd Hfresh Hb)
    as (t3 & names & w3 & t4 & rq & t5 & w' & Hs3 & Hsave & Hn & Ht4 & Ht5 & -> & Hfs & Hm & _).
  fold jd in Hs3, Hsave, Ht4, Ht5. cbn [fst snd]. rewrite Hfs.
  destruct (save_files_stored jd files [] (set_fs t3 (set_drawn (S (w_drawn w)) w))
              (job_input_flat _ _ Hs3)) as (names' & w3' & Hsave' & Hall & Hkeep & Hfr).
  rewrite Hsave in Hsave'. inversion Hsave'; subst names' w3'. clear Hsave'.
  cbn [w_fs set_fs] in *.
  exists names, rq. split; [done|]. split; [done|]. split; [done|].
  split; [by eapply write_file_read|]. split.
  - eapply Forall_impl; [exact Hall|]. intros n [Hp Hf]. split; [done|].
    eapply write_file_keeps_files; [exact Ht5|].
    eapply write_file_keeps_files; [exact Ht4|]. done.
  - intros l Hl Hdd.
    assert (kind (stat t5 (jd ++ "output" :: l)) = kind (stat t3 (jd ++ "output" :: l))) as Hk.
    { rewrite (write_file_frame_rel _ jd ["meta.json"] ("output" :: l) _ _ Ht5);
        [|repeat constructor; done|by constructor|done].
      rewrite (write_file_frame_rel _ jd ["meta.json"] ("output" :: l) _ _ Ht4);
        [|repeat constructor; done|by constructor|done].
      apply Hfr; [by constructor|done]. }
    rewrite (job_output_empty _ _ _ Hs3 Hl Hdd) in Hk.
    by destruct (stat t5 (jd ++ "output" :: l)) as [[|]|].
Qed.



End CreateJobMore.

Lemma bind_raise {A B} (c : M A) (k : A -> M B) w e w1 :
  c w = (Raise e, w1) -> bind c k w = (Raise e, w1).
Proof. unfold bind. by intros ->. Qed.

Section BrokerDown.
Import FS FSFacts MkdirFacts PathFacts NameFacts FrameFacts.
Variable file_ : path.


End BrokerDown.

Section Subprocesses.
Variable file_ : path.
Variable os_run : list string -> node -> proc.

(** X12. A run of the worker task launches at most two subprocesses:
    the reconstructor first, and the trainer only after the
    reconstructor ran to its end. *)
Theorem recon_job_subprocesses (job_id : string) (w : world) :
  let input_dir := DATA_DIR file_ // job_id // "input" in
  let output_dir := DATA_DIR file_ // job_id // "output" in
  let colmap := ["bash"; str (RUN_COLMAP_SH file_); str input_dir; str output_dir] in
  let trainer := ["bash"; str (RUN_3DGS_SH file_); str input_dir; str output_dir] in
  let ev := new_events w (snd (recon_job file_ os_run job_id w)) in
  runs ev = []
  \/ (exists out, runs ev = [(colmap, out)])
  \/ (exists p t out, runs ev = [(colmap, Exited p t); (trainer, out)]).
Proof.
  cbv zeta.
  destruct (runs (new_events w (snd (recon_job file_ os_run job_id w))))
    as [|[cmd out] rest] eqn:Hr; [by left|]. right.
  rewrite <- Hr.
  refine (recon_job_started file_ os_run job_id w _ _ _
            (fun r w' =>
               (exists out, runs (new_events w w') = [(_, out)])
               \/ (exists p t out, runs (new_events w w') = [(_, Exited p t); (_, out)]))
            Hr _).
  intros t0 en dr br qu _.
  scen_go (fun (t : node) (m : dict) => True).
  all: try (eexists _, _; split; [reflexivity|done]).
  all: trace_norm; simpl; first [ left; eexists; reflexivity
                                 | right; eexists _, _, _; reflexivity ].
Qed.

End Subprocesses.

Section SetupFaults.
Import FS FSFacts PathFacts FrameFacts OutputFacts.
Variable file_ : path.
Variable os_run : list string -> node -> proc.



End SetupFaults.

Section TrainedJob.
Import FS FSFacts PathFacts FrameFacts OutputFacts.
Variable file_ : path.
Variable os_run : list string -> node -> proc.


End TrainedJob.

(** The steps before [try:], followed up to the handler's block. *)
Ltac setup_until_try :=
  lazymatch goal with
  | |- wp (try_except _ _) _ _ => idtac
  | |- wp _ _ _ => first [ wp_cut | wp_step ]; setup_until_try
  | |- _ => idtac
  end.

Section Hint.
Import FS FSFacts PathFacts FrameFacts OutputFacts.
Variable file_ : path.
Variable os_run : list string -> node -> proc.


End Hint.

Section SparseServed.
Import FS FSFacts PathFacts FrameFacts OutputFacts UnifyFacts.
Variable file_ : path.
Variable os_run : list string -> node -> proc.


End SparseServed.

(** ** The further statements at work on the example worlds *)

Lemma missing_colmap_script_witness :
  statuses (new_events (Demo.created Demo.fs_bare)
              (snd (recon_job Demo.file0 Demo.no_bash Demo.job0
                      (Demo.created Demo.fs_bare))))
  = [Some (VStr "running"); Some (VStr "failed")].
Proof.
  destruct (missing_colmap_script Demo.file0 Demo.no_bash Demo.job0
              (Demo.created Demo.fs_bare)
              (initial_meta (w_fs (Demo.created Demo.fs_bare))
                 (DATA_DIR Demo.file0 // Demo.job0 // "meta.json")))
    as (_ & _ & H & _); [vm_compute; reflexivity..|].
  exact H.
Defined.








